(** * Shared-state orchestration of the video-analysis chatbot backend

    A shallow embedding of [app.py]: the request handlers, the WebSocket
    connection manager and the background session sweeper, written as
    state-passing programs over an explicit world.  The collaborators the
    handlers call ([redis_manager], [database], [chatbot], [supabase],
    [redis_storage]) are interfaces; a reference Redis manager that follows
    the design document is given for the properties that depend on what the
    store does. *)

From Stdlib Require Import ZArith List Bool Lia Sorting.Sorted Sorting.Permutation.
From stdpp Require Import base option gmap strings list.

Local Open Scope string_scope.
Local Open Scope list_scope.
Local Open Scope Z_scope.
Set Warnings "-register-all".

(* ================================================================== *)
(** * Python values                                                    *)
(* ================================================================== *)

(** The JSON-like values the handlers move around.  Numbers are integers:
    timestamps are kept in a fixed resolution and float rounding is not
    modelled.  A dict is an association list with unique keys, in insertion
    order. *)
Inductive pyval : Type :=
| PyNone
| PyBool (b : bool)
| PyNum (z : Z)
| PyStr (s : string)
| PyList (l : list pyval)
| PyDict (d : list (string * pyval)).

(** Python truth value ([bool(v)], as used by [if v] and [not v]). *)
Definition truthy (v : pyval) : bool :=
  match v with
  | PyNone => false
  | PyBool b => b
  | PyNum z => negb (z =? 0)
  | PyStr s => negb (String.eqb s "")
  | PyList l => match l with [] => false | _ :: _ => true end
  | PyDict d => match d with [] => false | _ :: _ => true end
  end.

Fixpoint dict_get (k : string) (d : list (string * pyval)) : option pyval :=
  match d with
  | [] => None
  | (k', v) :: d' => if String.eqb k k' then Some v else dict_get k d'
  end.

(** [d[k] = v]: replaces the value of an existing key, appends a new one. *)
Fixpoint dict_set (k : string) (v : pyval) (d : list (string * pyval))
  : list (string * pyval) :=
  match d with
  | [] => [(k, v)]
  | (k', v') :: d' =>
      if String.eqb k k' then (k, v) :: d' else (k', v') :: dict_set k v d'
  end.

(** [k in d]. *)
Definition dict_mem (k : string) (d : list (string * pyval)) : bool :=
  match dict_get k d with Some _ => true | None => false end.

(** The number a value stands for in arithmetic; [bool] is a subclass of
    [int] in Python, every other non-number raises [TypeError]. *)
Definition as_number (v : pyval) : option Z :=
  match v with
  | PyNum z => Some z
  | PyBool b => Some (if b then 1 else 0)
  | _ => None
  end.

(* ================================================================== *)
(** * Exceptions and results                                           *)
(* ================================================================== *)

(** Every exception below derives from [Exception], so [except Exception]
    catches each of them. *)
Inductive exn : Type :=
| HTTPException (status_code : Z) (detail : string)
| WebSocketDisconnect
| PyError (cls : string) (msg : string).

Inductive result (A : Type) : Type :=
| Ok (a : A)
| Raise (e : exn).
Arguments Ok {A} a.
Arguments Raise {A} e.

(* ================================================================== *)
(** * The world the handlers run in                                    *)
(* ================================================================== *)

(** A WebSocket object, by identity. *)
Definition handle := nat.

(** [redis_manager.TaskType] and [redis_manager.TaskPriority]. *)
Inductive TaskType := VIDEO_PROCESSING | VIDEO_ANALYSIS.
Inductive TaskPriority := HIGH | MEDIUM | LOW.

(** What a handler does to the outside, in program order. *)
Inductive event : Type :=
| LogError (msg : string) (e : option exn)
| LogInfo (msg : string)
| CallValidateSession (session_id : string)
| CallRefreshSession (session_id : string)
| CallCheckRateLimit (action client : string)
| CallSetSession (session_id : string) (data : pyval) (lifetime : Z)
| CallGetCache (key : string)
| CallSetCache (key : string) (value : pyval)
| CallInvalidateCache (key : string)
| CallEnqueueTask (ty : TaskType) (payload : pyval) (prio : TaskPriority)
| CallCleanupExpiredSessions
| CallSleep (seconds : Z)
| CallSignIn (email : string)
| CallGetChatHistory (user_id : N)
| CallGetVideoAnalysisHistory (user_id : N)
| CallInsertChatMessage (user_id : N) (text : pyval) (role : string)
| CallInsertVideoAnalysis (user_id : N) (filename : pyval)
| CallAccept (ws : handle)
| CallSendJson (ws : handle) (message : pyval).

(** [R] is the state behind [redis_manager], [X] the state behind every
    other collaborator (datastore, identity provider, chatbot, file
    storage, sockets).  [clock] is what [time.time()] returns;
    [active_connections] is the dict of the module-level
    [ConnectionManager]. *)
Record world (R X : Type) : Type := World {
  clock : Z;
  redis : R;
  ext : X;
  active_connections : gmap string handle;
  log : list event
}.
Arguments World {R X}.
Arguments clock {R X}.
Arguments redis {R X}.
Arguments ext {R X}.
Arguments active_connections {R X}.
Arguments log {R X}.

(** A call that may raise; the state it leaves behind is kept either way. *)
Definition M (R X A : Type) : Type := world R X -> result A * world R X.

Section Monad.
Context {R X : Type}.

Definition ret {A} (a : A) : M R X A := fun w => (Ok a, w).

Definition raise {A} (e : exn) : M R X A := fun w => (Raise e, w).

Definition bind {A B} (m : M R X A) (k : A -> M R X B) : M R X B :=
  fun w =>
    match m w with
    | (Ok a, w') => k a w'
    | (Raise e, w') => (Raise e, w')
    end.

(** [try: body / except Exception as e: handler e]. *)
Definition try_except {A} (body : M R X A) (handler : exn -> M R X A)
  : M R X A :=
  fun w =>
    match body w with
    | (Ok a, w') => (Ok a, w')
    | (Raise e, w') => handler e w'
    end.

Definition emit (e : event) : M R X unit :=
  fun w => (Ok tt,
            World (clock w) (redis w) (ext w) (active_connections w)
                  (log w ++ [e])).

Definition time_time : M R X Z := fun w => (Ok (clock w), w).

Definition on_redis {A} (f : R -> result A * R) : M R X A :=
  fun w =>
    let '(r, s) := f (redis w) in
    (r, World (clock w) s (ext w) (active_connections w) (log w)).

Definition on_ext {A} (f : X -> result A * X) : M R X A :=
  fun w =>
    let '(r, x) := f (ext w) in
    (r, World (clock w) (redis w) x (active_connections w) (log w)).

Definition get_connections : M R X (gmap string handle) :=
  fun w => (Ok (active_connections w), w).

Definition set_connections (c : gmap string handle) : M R X unit :=
  fun w => (Ok tt, World (clock w) (redis w) (ext w) c (log w)).
End Monad.

Declare Scope py_scope.
Delimit Scope py_scope with py.
Notation "x <~ m ;; k" := (bind m (fun x => k))
  (at level 100, m at next level, right associativity) : py_scope.
Notation "m ;;; k" := (bind m (fun _ => k))
  (at level 100, right associativity) : py_scope.
Local Open Scope py_scope.

(* ================================================================== *)
(** * Collaborators                                                    *)
(* ================================================================== *)

(** The methods of [redis_manager] that [app.py] calls.  Each receives the
    current time first (the manager reads the clock itself). *)
Record RedisManager (R : Type) : Type := {
  validate_session : Z -> string -> R -> result (pyval * pyval) * R;
  refresh_session : Z -> string -> R -> result pyval * R;
  set_session : Z -> string -> pyval -> Z -> R -> result pyval * R;
  delete_session : Z -> string -> R -> result pyval * R;
  check_rate_limit : Z -> string -> string -> R -> result pyval * R;
  get_cache : Z -> string -> R -> result pyval * R;
  set_cache : Z -> string -> pyval -> R -> result pyval * R;
  invalidate_cache : Z -> string -> R -> result pyval * R;
  enqueue_task : Z -> TaskType -> pyval -> TaskPriority -> R -> result pyval * R;
  cleanup_expired_sessions : Z -> R -> result pyval * R
}.
Arguments validate_session {R}.
Arguments refresh_session {R}.
Arguments set_session {R}.
Arguments delete_session {R}.
Arguments check_rate_limit {R}.
Arguments get_cache {R}.
Arguments set_cache {R}.
Arguments invalidate_cache {R}.
Arguments enqueue_task {R}.
Arguments cleanup_expired_sessions {R}.

(** The parts of an HTTP request the handlers read: the [session_id]
    cookie and [request.client.host] ([request.client] may be [None]). *)
Record Request : Type := {
  cookie_session_id : option string;
  client_host : option string
}.

(** An uploaded file: its name and the object [read()] is called on. *)
Record UploadFile : Type := {
  filename : pyval;
  file_obj : nat
}.

(** A [JSONResponse]: status, body, and the cookie set on it, if any
    (key, value, max_age). *)
Record Response : Type := {
  status : Z;
  content : pyval;
  cookie : option (string * string * Z)
}.

Definition JSONResponse (status_code : Z) (body : pyval) : Response :=
  {| status := status_code; content := body; cookie := None |}.

(** [response.set_cookie(key=..., value=..., max_age=...)]. *)
Definition with_cookie (r : Response) (key value : string) (max_age : Z)
  : Response :=
  {| status := status r; content := content r;
     cookie := Some (key, value, max_age) |}.

(** Everything else the handlers reach: [str()], [uuid], [secrets], the
    identity provider, the datastore, the chatbot, the file storage and the
    WebSocket transport. *)
Record External (X : Type) : Type := {
  py_str : pyval -> string;
  exn_str : exn -> string;
  uuid_UUID : pyval -> result N;
  uuid4 : X -> result string * X;
  token_urlsafe : X -> result string * X;
  sign_in_with_password : string -> string -> X -> result pyval * X;
  get_user_by_email : string -> X -> result pyval * X;
  create_user : string -> X -> result pyval * X;
  get_chat_history : N -> X -> result pyval * X;
  get_video_analysis_history : N -> X -> result pyval * X;
  insert_chat_message : N -> pyval -> string -> X -> result pyval * X;
  insert_video_analysis :
    N -> pyval -> pyval -> pyval -> pyval -> X -> result pyval * X;
  chatbot_send_message : string -> X -> result pyval * X;
  chatbot_analyze_video : string -> pyval -> X -> result (pyval * pyval) * X;
  video_read : UploadFile -> X -> result pyval * X;
  store_file : string -> pyval -> X -> result pyval * X;
  ws_accept : handle -> X -> result pyval * X;
  ws_send_json : handle -> pyval -> X -> result pyval * X
}.
Arguments py_str {X}.
Arguments exn_str {X}.
Arguments uuid_UUID {X}.
Arguments uuid4 {X}.
Arguments token_urlsafe {X}.
Arguments sign_in_with_password {X}.
Arguments get_user_by_email {X}.
Arguments create_user {X}.
Arguments get_chat_history {X}.
Arguments get_video_analysis_history {X}.
Arguments insert_chat_message {X}.
Arguments insert_video_analysis {X}.
Arguments chatbot_send_message {X}.
Arguments chatbot_analyze_video {X}.
Arguments video_read {X}.
Arguments store_file {X}.
Arguments ws_accept {X}.
Arguments ws_send_json {X}.

(** The constants imported from [session_config]. *)
Record SessionConfig : Type := {
  SESSION_LIFETIME : Z;
  SESSION_REFRESH_THRESHOLD : Z;
  SESSION_CLEANUP_INTERVAL : Z
}.

(* ================================================================== *)
(** * ConnectionManager                                                *)
(* ================================================================== *)

Module ConnectionManager.
Section Methods.
Context {R X : Type} (io : External X).

(** [connect]: accept the socket, then bind it to the client id. *)
Definition connect (websocket : handle) (client_id : string)
  : M R X pyval :=
  emit (CallAccept websocket) ;;;
  _ <~ on_ext (ws_accept io websocket) ;;
  conns <~ get_connections ;;
  set_connections (<[client_id := websocket]> conns) ;;;
  ret PyNone.

(** [disconnect]: delete the entry if there is one. *)
Definition disconnect (client_id : string) : M R X pyval :=
  conns <~ get_connections ;;
  match conns !! client_id with
  | Some _ => set_connections (delete client_id conns) ;;; ret PyNone
  | None => ret PyNone
  end.

(** [send_message]: no [return] statement on either branch. *)
Definition send_message (message : pyval) (client_id : string)
  : M R X pyval :=
  conns <~ get_connections ;;
  match conns !! client_id with
  | Some ws =>
      emit (CallSendJson ws message) ;;;
      _ <~ on_ext (ws_send_json io ws message) ;;
      ret PyNone
  | None => ret PyNone
  end.

(** The registry as the WebSocket endpoint drives it: a connect whose
    [accept] raises leaves the registry as it was, and the next
    operation still runs. *)
Inductive registry_op : Type :=
| Connect (websocket : handle) (client_id : string)
| Disconnect (client_id : string).

Definition run_op (o : registry_op) (w : world R X) : world R X :=
  match o with
  | Connect ws c => snd (connect ws c w)
  | Disconnect c => snd (disconnect c w)
  end.

Definition run_ops (ops : list registry_op) (w : world R X) : world R X :=
  fold_left (fun w o => run_op o w) ops w.

(** The events a call appended to the log. *)
Definition sent_by (message : pyval) (client_id : string) (w : world R X)
  : list event :=
  drop (length (log w)) (log (snd (send_message message client_id w))).
End Methods.
End ConnectionManager.

(* ================================================================== *)
(** * Request handlers                                                 *)
(* ================================================================== *)

Section Handlers.
Context {R X : Type}.
Context (redis_manager : RedisManager R) (io : External X)
        (cfg : SessionConfig).

(** A method call on [redis_manager]: recorded, then run at the current
    time. *)
Definition call_redis {A} (ev : event) (f : Z -> R -> result A * R)
  : M R X A :=
  emit ev ;;; (fun w => on_redis (f (clock w)) w).

Definition call_ext {A} (ev : event) (f : X -> result A * X) : M R X A :=
  emit ev ;;; on_ext f.

(** [v[k]] on a value: [KeyError] on a missing key, [TypeError] on a
    value that is not a dict. *)
Definition getitem (v : pyval) (k : string) : M R X pyval :=
  match v with
  | PyDict d =>
      match dict_get k d with
      | Some x => ret x
      | None => raise (PyError "KeyError" k)
      end
  | _ => raise (PyError "TypeError" "object is not subscriptable")
  end.

(** [v.get(k)]: [None] on a missing key, [AttributeError] on a value
    that is not a dict. *)
Definition get_method (v : pyval) (k : string) : M R X pyval :=
  match v with
  | PyDict d => ret (default PyNone (dict_get k d))
  | _ => raise (PyError "AttributeError" "object has no attribute 'get'")
  end.

Definition lift_result {A} (r : result A) : M R X A := fun w => (r, w).

(** [get_current_user(request, return_none)]. *)
Definition get_current_user (request : Request) (return_none : bool)
  : M R X pyval :=
  try_except
    (let session_id := default "" (cookie_session_id request) in
     if String.eqb session_id "" then
       if return_none then ret PyNone
       else raise (HTTPException 401 "Not authenticated")
     else
       validated <~
         call_redis (CallValidateSession session_id)
           (fun now => validate_session redis_manager now session_id) ;;
       let '(is_valid, session_data) := validated in
       if negb (truthy is_valid) || negb (truthy session_data) then
         if return_none then ret PyNone
         else raise (HTTPException 401 "Invalid or expired session")
       else
         match session_data with
         | PyDict d =>
             if negb (dict_mem "id" d) then
               if return_none then ret PyNone
               else raise (HTTPException 401 "Invalid session data")
             else
               current_time <~ time_time ;;
               let last_refresh :=
                 default (PyNum 0) (dict_get "last_refresh" d) in
               match as_number last_refresh with
               | None =>
                   raise (PyError "TypeError"
                                  "unsupported operand type(s) for -")
               | Some t =>
                   (if SESSION_REFRESH_THRESHOLD cfg <? current_time - t
                    then
                      _ <~ call_redis (CallRefreshSession session_id)
                             (fun now =>
                                refresh_session redis_manager now
                                                session_id) ;;
                      ret tt
                    else ret tt) ;;;
                   ret session_data
               end
         | _ =>
             if return_none then ret PyNone
             else raise (HTTPException 401 "Invalid session data")
         end)
    (fun e =>
       emit (LogError "Error in get_current_user" (Some e)) ;;;
       if return_none then ret PyNone
       else raise (HTTPException 401 "Authentication error")).

(** [login_post(request, email, password)]. *)
Definition login_post (request : Request) (email password : string)
  : M R X Response :=
  try_except
    (host <~ match client_host request with
             | Some h => ret h
             | None =>
                 raise (PyError "AttributeError"
                                "'NoneType' object has no attribute 'host'")
             end ;;
     allowed <~ call_redis (CallCheckRateLimit "login" host)
                  (fun now => check_rate_limit redis_manager now
                                               "login" host) ;;
     if negb (truthy allowed) then
       raise (HTTPException 429
                "Too many login attempts. Please try again later.")
     else
       auth_user <~ call_ext (CallSignIn email)
                      (sign_in_with_password io email password) ;;
       if negb (truthy auth_user) then
         emit (LogError "Login failed: No user in response" None) ;;;
         ret (JSONResponse 400
                (PyDict [("success", PyBool false);
                         ("message", PyStr "Invalid credentials")]))
       else
         found <~ on_ext (get_user_by_email io email) ;;
         user <~ (if negb (truthy found)
                  then on_ext (create_user io email)
                  else ret found) ;;
         session_id <~ on_ext (token_urlsafe io) ;;
         user_id <~ get_method user "id" ;;
         now <~ time_time ;;
         let session_data :=
           PyDict [("id", PyStr (py_str io user_id));
                   ("email", PyStr email);
                   ("last_refresh", PyNum now)] in
         stored <~ call_redis
                     (CallSetSession session_id session_data
                                     (SESSION_LIFETIME cfg))
                     (fun now => set_session redis_manager now session_id
                                   session_data (SESSION_LIFETIME cfg)) ;;
         if negb (truthy stored) then
           raise (HTTPException 500 "Failed to create session")
         else
           ret (with_cookie
                  (JSONResponse 200
                     (PyDict [("success", PyBool true);
                              ("message", PyStr "Login successful")]))
                  "session_id" session_id (SESSION_LIFETIME cfg)))
    (fun e =>
       emit (LogError "Login error" (Some e)) ;;;
       ret (JSONResponse 400
              (PyDict [("success", PyBool false);
                       ("message", PyStr (exn_str io e))]))).

Definition chat_history_key (user_id : pyval) : string :=
  String.append "chat_history:" (py_str io user_id).

Definition video_history_key (user_id : pyval) : string :=
  String.append "video_history:" (py_str io user_id).

(** The body shared by the two history endpoints, which differ in the
    cache key prefix, the log line and the datastore query. *)
Definition history_endpoint (key_of : pyval -> string) (info : string)
    (query_event : N -> event) (query : N -> X -> result pyval * X)
    (request : Request) : M R X Response :=
  user <~ get_current_user request false ;;
  if negb (truthy user) then
    ret (JSONResponse 200 (PyDict [("history", PyList [])]))
  else
    user_id <~ getitem user "id" ;;
    let cache_key := key_of user_id in
    cached_history <~ call_redis (CallGetCache cache_key)
                        (fun now => get_cache redis_manager now
                                              cache_key) ;;
    if truthy cached_history then
      emit (LogInfo (String.append info (py_str io user_id))) ;;;
      ret (JSONResponse 200 (PyDict [("history", cached_history)]))
    else
      uid <~ lift_result (uuid_UUID io user_id) ;;
      history <~ call_ext (query_event uid) (query uid) ;;
      _ <~ call_redis (CallSetCache cache_key history)
             (fun now => set_cache redis_manager now cache_key history) ;;
      ret (JSONResponse 200 (PyDict [("history", history)])).

(** [GET /chat_history]. *)
Definition get_chat_history_endpoint : Request -> M R X Response :=
  history_endpoint chat_history_key
    "Returning cached chat history for user "
    CallGetChatHistory (get_chat_history io).

(** [GET /video_analysis_history]. *)
Definition get_video_analysis_history_endpoint
  : Request -> M R X Response :=
  history_endpoint video_history_key
    "Returning cached video history for user "
    CallGetVideoAnalysisHistory (get_video_analysis_history io).

(** [x.get(k) if x else None]. *)
Definition get_if_truthy (x : pyval) (k : string) : M R X pyval :=
  if truthy x then get_method x k else ret PyNone.

(** One turn of the [for video in videos] loop of [send_message]. *)
Definition process_video (user : pyval) (video : UploadFile)
  : M R X unit :=
  content_ <~ on_ext (video_read io video) ;;
  file_id <~ on_ext (uuid4 io) ;;
  user_id <~ getitem user "id" ;;
  let payload := PyDict [("file_id", PyStr file_id);
                         ("filename", filename video);
                         ("user_id", user_id)] in
  _ <~ call_redis (CallEnqueueTask VIDEO_PROCESSING payload HIGH)
         (fun now => enqueue_task redis_manager now VIDEO_PROCESSING
                                  payload HIGH) ;;
  stored <~ on_ext (store_file io file_id content_) ;;
  if truthy stored then
    analysed <~ on_ext (chatbot_analyze_video io file_id
                                              (filename video)) ;;
    let '(analysis_text, metadata) := analysed in
    user_id <~ getitem user "id" ;;
    let payload := PyDict [("file_id", PyStr file_id);
                           ("analysis", analysis_text);
                           ("metadata", metadata);
                           ("user_id", user_id)] in
    _ <~ call_redis (CallEnqueueTask VIDEO_ANALYSIS payload MEDIUM)
           (fun now => enqueue_task redis_manager now VIDEO_ANALYSIS
                                    payload MEDIUM) ;;
    uid <~ lift_result (uuid_UUID io user_id) ;;
    duration <~ get_if_truthy metadata "duration" ;;
    format <~ get_if_truthy metadata "format" ;;
    _ <~ call_ext (CallInsertVideoAnalysis uid (filename video))
           (insert_video_analysis io uid (filename video) analysis_text
                                  duration format) ;;
    ret tt
  else ret tt.

Fixpoint for_each {A} (body : A -> M R X unit) (l : list A)
  : M R X unit :=
  match l with
  | [] => ret tt
  | a :: l' => body a ;;; for_each body l'
  end.

(** [POST /send_message]; [videos] is [[]] when the form carries none. *)
Definition send_message (request : Request) (message : string)
    (videos : list UploadFile) : M R X Response :=
  user <~ get_current_user request false ;;
  try_except
    (for_each (process_video user) videos ;;;
     response_text <~ on_ext (chatbot_send_message io message) ;;
     user_id <~ getitem user "id" ;;
     uid <~ lift_result (uuid_UUID io user_id) ;;
     _ <~ call_ext (CallInsertChatMessage uid (PyStr message) "user")
            (insert_chat_message io uid (PyStr message) "user") ;;
     uid <~ lift_result (uuid_UUID io user_id) ;;
     _ <~ call_ext (CallInsertChatMessage uid response_text "bot")
            (insert_chat_message io uid response_text "bot") ;;
     let cache_key := chat_history_key user_id in
     _ <~ call_redis (CallInvalidateCache cache_key)
            (fun now => invalidate_cache redis_manager now cache_key) ;;
     ret (JSONResponse 200 (PyDict [("response", response_text)])))
    (fun e =>
       emit (LogError "Error processing message" (Some e)) ;;;
       raise (HTTPException 500 (exn_str io e))).

(** [asyncio.sleep(seconds)]: the clock moves on by that much. *)
Definition sleep (seconds : Z) : M R X unit :=
  emit (CallSleep seconds) ;;;
  (fun w => (Ok tt,
             World (clock w + seconds) (redis w) (ext w)
                   (active_connections w) (log w))).

(** The body of the [while True] loop of [cleanup_sessions], and the
    loop unrolled [fuel] times.  Running out of fuel returns normally:
    the task is still alive. *)
Definition cleanup_iteration : M R X unit :=
  _ <~ call_redis CallCleanupExpiredSessions
         (fun now => cleanup_expired_sessions redis_manager now) ;;
  sleep (SESSION_CLEANUP_INTERVAL cfg).

Fixpoint cleanup_sessions (fuel : nat) : M R X unit :=
  match fuel with
  | O => ret tt
  | S fuel' => cleanup_iteration ;;; cleanup_sessions fuel'
  end.
End Handlers.

(* ================================================================== *)
(** * A reference Redis manager                                        *)
(* ================================================================== *)

(** [redis_manager.py] is not part of the sources at hand; the manager
    below follows the design document, section by section. *)
Module RedisStore.

(** Modelled from the spec: the session record of [redis_manager]
    (claims, the lifetime it was written with, and the instant its TTL
    runs out). *)
Record session_record : Type := {
  sess_data : pyval;
  sess_lifetime : Z;
  sess_expires : Z
}.

(** Modelled from the spec: the task record of [redis_manager] (unique
    id, type, payload, priority, enqueue sequence number and time). *)
Record task : Type := {
  task_id : nat;
  task_type : TaskType;
  task_payload : pyval;
  task_priority : TaskPriority;
  task_seq : nat;
  task_enqueued_at : Z
}.

(** Modelled from the spec: the key-value store behind [redis_manager]:
    whether it is reachable, the session records, the rate-limit
    counters keyed by (action, client, window index) with count and
    expiry, the cache entries with expiry, one FIFO collection per
    priority level and the next sequence number. *)
Record state : Type := {
  store_up : bool;
  sessions : gmap string session_record;
  counters : gmap (string * string * Z) (Z * Z);
  cache : gmap string (pyval * Z);
  queue_high : list task;
  queue_medium : list task;
  queue_low : list task;
  next_seq : nat
}.

(** Modelled from the spec: the tunables of [redis_manager] that
    [app.py] leaves at their defaults (limiter threshold, window and
    outage policy; cache TTL). *)
Record settings : Type := {
  max_requests : Z;
  window : Z;
  fail_open : bool;
  cache_ttl : Z
}.

Definition empty : state :=
  {| store_up := true; sessions := ∅; counters := ∅; cache := ∅;
     queue_high := []; queue_medium := []; queue_low := [];
     next_seq := O |}.

Definition with_sessions (m : gmap string session_record) (s : state)
  : state :=
  {| store_up := store_up s; sessions := m; counters := counters s;
     cache := cache s; queue_high := queue_high s;
     queue_medium := queue_medium s; queue_low := queue_low s;
     next_seq := next_seq s |}.

Definition with_counters (m : gmap (string * string * Z) (Z * Z))
    (s : state) : state :=
  {| store_up := store_up s; sessions := sessions s; counters := m;
     cache := cache s; queue_high := queue_high s;
     queue_medium := queue_medium s; queue_low := queue_low s;
     next_seq := next_seq s |}.

Definition with_cache (m : gmap string (pyval * Z)) (s : state) : state :=
  {| store_up := store_up s; sessions := sessions s;
     counters := counters s; cache := m; queue_high := queue_high s;
     queue_medium := queue_medium s; queue_low := queue_low s;
     next_seq := next_seq s |}.

(** The store going down or coming back. *)
Definition with_store_up (b : bool) (s : state) : state :=
  {| store_up := b; sessions := sessions s; counters := counters s;
     cache := cache s; queue_high := queue_high s;
     queue_medium := queue_medium s; queue_low := queue_low s;
     next_seq := next_seq s |}.

Definition store_unavailable : exn := PyError "StoreUnavailable" "".

(* ---------------------------------------------------------------- *)
(** ** Session manager                                               *)

(** The record under a key, unless its TTL has run out. *)
Definition live_session (now : Z) (session_key : string) (s : state)
  : option session_record :=
  match sessions s !! session_key with
  | Some r => if now <? sess_expires r then Some r else None
  | None => None
  end.

(** A record is well-formed when it is a dict with the identity field. *)
Definition well_formed (v : pyval) : bool :=
  match v with PyDict d => dict_mem "id" d | _ => false end.

Definition stamp (now : Z) (v : pyval) : pyval :=
  match v with
  | PyDict d => PyDict (dict_set "last_refresh" (PyNum now) d)
  | _ => v
  end.

(** Modelled from the spec: [create(session_key, claims, lifetime)] of
    the Session Manager ([redis_manager.set_session]): writes the record
    with [last_refresh = now]; when the write cannot be confirmed nothing
    is written and the result is false, which is what [login_post]
    tests. *)
Definition set_session (now : Z) (session_key : string) (claims : pyval)
    (lifetime : Z) (s : state) : result pyval * state :=
  if store_up s then
    (Ok (PyBool true),
     with_sessions
       (<[session_key := {| sess_data := stamp now claims;
                            sess_lifetime := lifetime;
                            sess_expires := now + lifetime |}]>
          (sessions s)) s)
  else (Ok (PyBool false), s).

(** Modelled from the spec: [validate(session_key)] of the Session
    Manager ([redis_manager.validate_session]): invalid if the record is
    absent, malformed, or the store read fails. *)
Definition validate_session (now : Z) (session_key : string) (s : state)
  : result (pyval * pyval) * state :=
  if store_up s then
    match live_session now session_key s with
    | Some r =>
        if well_formed (sess_data r)
        then (Ok (PyBool true, sess_data r), s)
        else (Ok (PyBool false, PyNone), s)
    | None => (Ok (PyBool false, PyNone), s)
    end
  else (Ok (PyBool false, PyNone), s).

(** Modelled from the spec: [refresh(session_key)] of the Session
    Manager ([redis_manager.refresh_session]): re-writes the record with
    the same TTL and an updated [last_refresh]; false if the record no
    longer exists. *)
Definition refresh_session (now : Z) (session_key : string) (s : state)
  : result pyval * state :=
  if store_up s then
    match live_session now session_key s with
    | Some r =>
        (Ok (PyBool true),
         with_sessions
           (<[session_key := {| sess_data := stamp now (sess_data r);
                                sess_lifetime := sess_lifetime r;
                                sess_expires := now + sess_lifetime r |}]>
              (sessions s)) s)
    | None => (Ok (PyBool false), s)
    end
  else (Ok (PyBool false), s).

(** Modelled from the spec: [delete(session_key)] of the Session Manager
    ([redis_manager.delete_session]): idempotent. *)
Definition delete_session (now : Z) (session_key : string) (s : state)
  : result pyval * state :=
  if store_up s then
    (Ok (PyBool true), with_sessions (delete session_key (sessions s)) s)
  else (Ok (PyBool false), s).

(** Modelled from the spec: [sweep_expired()] of the Session Manager
    ([redis_manager.cleanup_expired_sessions]): drops the records whose
    TTL has run out; a sweep fails when the store is unreachable. *)
Definition cleanup_expired_sessions (now : Z) (s : state)
  : result pyval * state :=
  if store_up s then
    (Ok PyNone,
     with_sessions
       (filter (fun kv => now < sess_expires (snd kv)) (sessions s)) s)
  else (Raise store_unavailable, s).

(* ---------------------------------------------------------------- *)
(** ** Rate limiter                                                  *)

(** The window a time falls in (floor division, as Python's [//]). *)
Definition window_index (w now : Z) : Z := now / w.

(** The count under a counter key, 0 when absent or expired. *)
Definition live_count (now : Z) (key : string * string * Z) (s : state)
  : option (Z * Z) :=
  match counters s !! key with
  | Some (c, expires) => if now <? expires then Some (c, expires) else None
  | None => None
  end.

(** Modelled from the spec: [check(action, client_identity,
    max_requests, window)] of the Rate Limiter: a fixed-window counter
    keyed by (action, client, window index), created with TTL = window
    length if absent; allowed iff the post-increment count is at most
    [max_requests].  With the store unreachable nothing is counted and
    the answer is the configured policy. *)
Definition check (policy_open : bool) (now : Z) (action client : string)
    (n w : Z) (s : state) : result pyval * state :=
  if store_up s then
    let key := (action, client, window_index w now) in
    let '(count, expires) :=
      match live_count now key s with
      | Some (c, e) => (c + 1, e)
      | None => (1, now + w)
      end in
    (Ok (PyBool (count <=? n)),
     with_counters (<[key := (count, expires)]> (counters s)) s)
  else (Ok (PyBool policy_open), s).

(** Modelled from the spec: [redis_manager.check_rate_limit(action,
    client)] as [app.py] calls it, the threshold and window left at the
    manager's defaults. *)
Definition check_rate_limit (cfg : settings) (now : Z)
    (action client : string) (s : state) : result pyval * state :=
  check (fail_open cfg) now action client (max_requests cfg) (window cfg) s.

(** A run of checks by one client on one action, at the given times. *)
Fixpoint run_checks (policy_open : bool) (action client : string)
    (n w : Z) (times : list Z) (s : state) : list (result pyval) * state :=
  match times with
  | [] => ([], s)
  | t :: times' =>
      let '(r, s') := check policy_open t action client n w s in
      let '(rs, s'') :=
        run_checks policy_open action client n w times' s' in
      (r :: rs, s'')
  end.

(* ---------------------------------------------------------------- *)
(** ** Cache manager                                                 *)

(** Modelled from the spec: [get(key)] of the Cache Manager
    ([redis_manager.get_cache]): the value, or absent ([None]) when
    there is no live entry or the store read fails. *)
Definition get_cache (now : Z) (key : string) (s : state)
  : result pyval * state :=
  if store_up s then
    match cache s !! key with
    | Some (v, expires) =>
        if now <? expires then (Ok v, s) else (Ok PyNone, s)
    | None => (Ok PyNone, s)
    end
  else (Ok PyNone, s).

(** Modelled from the spec: [set(key, value, ttl)] of the Cache Manager
    ([redis_manager.set_cache], the TTL left at its default). *)
Definition set_cache (cfg : settings) (now : Z) (key : string)
    (value : pyval) (s : state) : result pyval * state :=
  if store_up s then
    (Ok (PyBool true),
     with_cache (<[key := (value, now + cache_ttl cfg)]> (cache s)) s)
  else (Ok (PyBool false), s).

(** Modelled from the spec: [invalidate(key)] of the Cache Manager
    ([redis_manager.invalidate_cache]): either the key is gone when the
    call returns, or the call fails loudly. *)
Definition invalidate_cache (now : Z) (key : string) (s : state)
  : result pyval * state :=
  if store_up s then
    (Ok (PyBool true), with_cache (delete key (cache s)) s)
  else (Raise store_unavailable, s).

(* ---------------------------------------------------------------- *)
(** ** Task queue                                                    *)

(** Priority rank: smaller is served first. *)
Definition rank (p : TaskPriority) : nat :=
  match p with HIGH => 0%nat | MEDIUM => 1%nat | LOW => 2%nat end.

Definition push (t : task) (s : state) : state :=
  {| store_up := store_up s; sessions := sessions s;
     counters := counters s; cache := cache s;
     queue_high := match task_priority t with
                   | HIGH => queue_high s ++ [t] | _ => queue_high s end;
     queue_medium := match task_priority t with
                     | MEDIUM => queue_medium s ++ [t]
                     | _ => queue_medium s end;
     queue_low := match task_priority t with
                  | LOW => queue_low s ++ [t] | _ => queue_low s end;
     next_seq := S (next_seq s) |}.

(** Modelled from the spec: [enqueue(task_type, payload, priority)] of
    the Task Queue, returning the task record: one ordered collection
    per priority level, a monotonically increasing sequence number
    attached at enqueue time (it also serves as the unique id); fails
    with [StoreUnavailable] if the store is unreachable. *)
Definition enqueue (now : Z) (ty : TaskType) (payload : pyval)
    (priority : TaskPriority) (s : state) : result task * state :=
  if store_up s then
    let t := {| task_id := next_seq s; task_type := ty;
                task_payload := payload; task_priority := priority;
                task_seq := next_seq s; task_enqueued_at := now |} in
    (Ok t, push t s)
  else (Raise store_unavailable, s).

(** Modelled from the spec: [redis_manager.enqueue_task], which hands
    the caller the task id. *)
Definition enqueue_task (now : Z) (ty : TaskType) (payload : pyval)
    (priority : TaskPriority) (s : state) : result pyval * state :=
  match enqueue now ty payload priority s with
  | (Ok t, s') => (Ok (PyNum (Z.of_nat (task_id t))), s')
  | (Raise e, s') => (Raise e, s')
  end.

(** Modelled from the spec: retrieval from the Task Queue, the next task
    in the documented order: the oldest task of the highest non-empty
    priority level. *)
Definition dequeue (s : state) : option (task * state) :=
  match queue_high s, queue_medium s, queue_low s with
  | t :: q, _, _ =>
      Some (t, {| store_up := store_up s; sessions := sessions s;
                  counters := counters s; cache := cache s;
                  queue_high := q; queue_medium := queue_medium s;
                  queue_low := queue_low s; next_seq := next_seq s |})
  | [], t :: q, _ =>
      Some (t, {| store_up := store_up s; sessions := sessions s;
                  counters := counters s; cache := cache s;
                  queue_high := []; queue_medium := q;
                  queue_low := queue_low s; next_seq := next_seq s |})
  | [], [], t :: q =>
      Some (t, {| store_up := store_up s; sessions := sessions s;
                  counters := counters s; cache := cache s;
                  queue_high := []; queue_medium := [];
                  queue_low := q; next_seq := next_seq s |})
  | [], [], [] => None
  end.

(** Retrieving up to [fuel] tasks, in order. *)
Fixpoint retrieve (fuel : nat) (s : state) : list task :=
  match fuel with
  | O => []
  | S fuel' =>
      match dequeue s with
      | Some (t, s') => t :: retrieve fuel' s'
      | None => []
      end
  end.

Definition pending (s : state) : nat :=
  (length (queue_high s) + length (queue_medium s)
   + length (queue_low s))%nat.

(** Everything that is queued, in retrieval order. *)
Definition retrieve_all (s : state) : list task := retrieve (pending s) s.

(** Enqueuing a batch of priorities, one task each, collecting the
    tasks that were accepted. *)
Fixpoint enqueue_all (now : Z) (ps : list TaskPriority) (s : state)
  : list task * state :=
  match ps with
  | [] => ([], s)
  | p :: ps' =>
      match enqueue now VIDEO_PROCESSING PyNone p s with
      | (Ok t, s') =>
          let '(ts, s'') := enqueue_all now ps' s' in (t :: ts, s'')
      | (Raise _, s') => enqueue_all now ps' s'
      end
  end.

(** Retrieval order: priority rank first, sequence number second. *)
Definition before (a b : task) : Prop :=
  (rank (task_priority a) < rank (task_priority b))%nat
  \/ (task_priority a = task_priority b /\ (task_seq a < task_seq b)%nat).

(* ---------------------------------------------------------------- *)
(** ** The manager object                                            *)

Definition manager (cfg : settings) : RedisManager state :=
  Build_RedisManager state
    validate_session refresh_session set_session delete_session
    (check_rate_limit cfg) get_cache (set_cache cfg) invalidate_cache
    enqueue_task cleanup_expired_sessions.

End RedisStore.

(* ================================================================== *)
(** * A small deployment to run the handlers on                        *)
(* ================================================================== *)

Module Demo.
(** The datastore is the list of chat rows (user, text) in insertion
    order; every other collaborator answers at once. *)
Definition store := list (N * pyval).

Definition str (v : pyval) : string :=
  match v with PyStr s => s | _ => "" end.

Definition parse_uuid (v : pyval) : result N :=
  match v with
  | PyStr s => Ok (N.of_nat (String.length s))
  | _ => Raise (PyError "TypeError" "")
  end.

Definition history_of (u : N) (x : store) : pyval :=
  PyList (map snd (filter (fun row => N.eqb (fst row) u) x)).

Definition io : External store :=
  {| py_str := str;
     exn_str := fun e => match e with
                         | HTTPException _ d => d
                         | WebSocketDisconnect => ""
                         | PyError c _ => c
                         end;
     uuid_UUID := parse_uuid;
     uuid4 := fun x => (Ok "file-1", x);
     token_urlsafe := fun x => (Ok "token-1", x);
     sign_in_with_password :=
       fun email _ x => (Ok (PyDict [("email", PyStr email)]), x);
     get_user_by_email :=
       fun email x => (Ok (PyDict [("id", PyStr "u1")]), x);
     create_user := fun email x => (Ok (PyDict [("id", PyStr "u1")]), x);
     get_chat_history := fun u x => (Ok (history_of u x), x);
     get_video_analysis_history := fun u x => (Ok (PyList []), x);
     insert_chat_message :=
       fun u text _ x => (Ok PyNone, (x ++ [(u, text)])%list);
     insert_video_analysis := fun _ _ _ _ _ x => (Ok PyNone, x);
     chatbot_send_message := fun m x => (Ok (PyStr "hello"), x);
     chatbot_analyze_video :=
       fun _ _ x => (Ok (PyStr "analysis", PyDict []), x);
     video_read := fun _ x => (Ok (PyStr "bytes"), x);
     store_file := fun _ _ x => (Ok (PyBool true), x);
     ws_accept := fun _ x => (Ok PyNone, x);
     ws_send_json := fun _ _ x => (Ok PyNone, x) |}.

Definition settings : RedisStore.settings :=
  {| RedisStore.max_requests := 5; RedisStore.window := 60;
     RedisStore.fail_open := false; RedisStore.cache_ttl := 300 |}.

(** The same limiter, failing open when the store is down. *)
Definition settings_open : RedisStore.settings :=
{| RedisStore.max_requests := 5; RedisStore.window := 60;
   RedisStore.fail_open := true; RedisStore.cache_ttl := 300 |}.

(** The deployment with the store unreachable. *)
Definition outage : world RedisStore.state store :=
World 1000 (RedisStore.with_store_up false RedisStore.empty) [] ∅ [].

Definition cfg : SessionConfig :=
  {| SESSION_LIFETIME := 3600; SESSION_REFRESH_THRESHOLD := 300;
     SESSION_CLEANUP_INTERVAL := 600 |}.

Definition manager : RedisManager RedisStore.state :=
  RedisStore.manager settings.

Definition start : world RedisStore.state store :=
  World 1000 RedisStore.empty [] ∅ [].

Definition request (session_id : string) : Request :=
  {| cookie_session_id := Some session_id;
     client_host := Some "10.0.0.1" |}.

Definition claims : list (string * pyval) :=
  [("id", PyStr "u1"); ("email", PyStr "a@b.c");
   ("last_refresh", PyNum 1000)].

(** Session "s1" was created at time 1000; it is now [now]. *)
Definition logged_in (now : Z) : world RedisStore.state store :=
  World now
    (snd (RedisStore.set_session 1000 "s1" (PyDict claims) 3600
            RedisStore.empty))
    [] ∅ [].

(** User "u1" (whose id parses to 2) is logged in, one chat row is in
    the datastore, and [value] sits in the cache under the chat-history
    key of the user. *)
Definition with_cached (value : pyval) : world RedisStore.state store :=
World 1100
  (snd (RedisStore.set_cache settings 1050 "chat_history:u1" value
          (redis (logged_in 1100))))
  [(2%N, PyStr "hi")] ∅ [].
End Demo.

(* ================================================================== *)
(** * Observations used in the statements                              *)
(* ================================================================== *)

(** The events a run appended to the log of the world it started from. *)
Definition new_events {R X : Type} (before after : world R X) : list event :=
  drop (length (log before)) (log after).

(** What [validate_session] hands back for a session that is deleted,
    was never created, could not be read, or is malformed: an exception,
    a falsy validity flag, falsy data, data that is not a dict, or a dict
    without the ['id'] field. *)
Definition rejected (validated : result (pyval * pyval)) : bool :=
  match validated with
  | Raise _ => true
  | Ok (is_valid, session_data) =>
      negb (truthy is_valid) || negb (truthy session_data)
      || match session_data with
         | PyDict d => negb (dict_mem "id" d)
         | _ => true
         end
  end.

(** The session ids [refresh_session] was called with, in order. *)
Fixpoint refresh_calls (l : list event) : list string :=
  match l with
  | [] => []
  | CallRefreshSession sid :: l' => sid :: refresh_calls l'
  | _ :: l' => refresh_calls l'
  end.

(** Time passing between two requests. *)
Definition tick {R X : Type} (dt : Z) (w : world R X) : world R X :=
  World (clock w + dt) (redis w) (ext w) (active_connections w) (log w).

(** The [last_refresh] field of the record stored under a session key. *)
Definition stored_last_refresh (session_key : string)
    (s : RedisStore.state) : option pyval :=
  match RedisStore.sessions s !! session_key with
  | Some r =>
      match RedisStore.sess_data r with
      | PyDict d => dict_get "last_refresh" d
      | _ => None
      end
  | None => None
  end.

(** Whether a write reported by the manager was confirmed: it returned,
    and what it returned is truthy. *)
Definition confirmed (r : result pyval) : bool :=
  match r with
  | Ok v => truthy v
  | Raise _ => false
  end.

(** The exception [login_post] ends up reporting when the session write
    is not confirmed. *)
Definition write_failure (r : result pyval) : exn :=
  match r with
  | Ok _ => HTTPException 500 "Failed to create session"
  | Raise e => e
  end.

Section HistoryContract.
Context {R X : Type}.
Context (mgr : RedisManager R) (io : External X) (cfg : SessionConfig).

(** What a history endpoint owes its caller, for an authenticated user
    whose id is [uid] and a cache lookup that answers [cached]: a truthy
    value is served as it is, without a datastore query; a falsy one
    (absent, [None], an empty list) is a miss, so that when the id parses
    and the query and the cache write return, the history comes from the
    datastore and is written back under the same key. *)
Definition falsy_is_a_miss
    (endpoint : Request -> M R X Response) (key_of : pyval -> string)
    (info : string) (query_event : N -> event)
    (query : N -> X -> result pyval * X) : Prop :=
  forall (request : Request) (w w1 : world R X)
         (d : list (string * pyval)) (uid cached : pyval) (r2 : R),
    get_current_user mgr cfg request false w = (Ok (PyDict d), w1) ->
    dict_get "id" d = Some uid ->
    get_cache mgr (clock w1) (key_of uid) (redis w1) = (Ok cached, r2) ->
    if truthy cached then
      endpoint request w =
        (Ok (JSONResponse 200 (PyDict [("history", cached)])),
         World (clock w1) r2 (ext w1) (active_connections w1)
               (log w1 ++ [CallGetCache (key_of uid);
                           LogInfo (String.append info (py_str io uid))]))
    else
      forall (u : N) (history stored : pyval) (x3 : X) (r3 : R),
        uuid_UUID io uid = Ok u ->
        query u (ext w1) = (Ok history, x3) ->
        set_cache mgr (clock w1) (key_of uid) history r2 = (Ok stored, r3) ->
        endpoint request w =
          (Ok (JSONResponse 200 (PyDict [("history", history)])),
           World (clock w1) r3 x3 (active_connections w1)
                 (log w1 ++ [CallGetCache (key_of uid); query_event u;
                             CallSetCache (key_of uid) history])).
End HistoryContract.

(** The limiter's counter of window [i] for one client and action after
    [k] checks in that window: absent before the first, otherwise [k]
    with an expiry past the end of the window. *)
Definition counted (action client : string) (w i : Z) (k : nat)
    (s : RedisStore.state) : Prop :=
  match k with
  | O => RedisStore.counters s !! (action, client, i) = None
  | S _ => exists expires,
      RedisStore.counters s !! (action, client, i)
        = Some (Z.of_nat k, expires)
      /\ (i + 1) * w <= expires
  end.

(** One priority level of the task queue: it holds tasks of that priority
    only, in increasing sequence number, all numbered below [bound]. *)
Definition fifo (p : TaskPriority) (bound : nat)
    (q : list RedisStore.task) : Prop :=
  Forall (fun t => RedisStore.task_priority t = p
                   /\ (RedisStore.task_seq t < bound)%nat) q
  /\ StronglySorted
       (fun a b => (RedisStore.task_seq a < RedisStore.task_seq b)%nat) q.

(** The states the task queue can be in: every level is a [fifo] below
    the next sequence number.  The empty queue is one, and enqueuing and
    dequeuing keep it. *)
Definition queue_ok (s : RedisStore.state) : Prop :=
  fifo HIGH (RedisStore.next_seq s) (RedisStore.queue_high s)
  /\ fifo MEDIUM (RedisStore.next_seq s) (RedisStore.queue_medium s)
  /\ fifo LOW (RedisStore.next_seq s) (RedisStore.queue_low s).

(** What can happen to the cache between an invalidation and a later
    read: writes and invalidations by any caller, and the store going
    down or coming back. *)
Inductive cache_op : Type :=
| CacheSet (now : Z) (key : string) (value : pyval)
| CacheInvalidate (now : Z) (key : string)
| StoreOutage (up : bool).

Definition apply_cache_op (st : RedisStore.settings) (s : RedisStore.state)
    (o : cache_op) : RedisStore.state :=
  match o with
  | CacheSet now key value => snd (RedisStore.set_cache st now key value s)
  | CacheInvalidate now key => snd (RedisStore.invalidate_cache now key s)
  | StoreOutage up => RedisStore.with_store_up up s
  end.

Definition run_cache_ops (st : RedisStore.settings) (ops : list cache_op)
    (s : RedisStore.state) : RedisStore.state :=
  fold_left (apply_cache_op st) ops s.

(* ================================================================== *)
(** * The remaining handlers                                           *)
(* ================================================================== *)

(** What an [httpx] response offers to [health_check]: the status code
    and what [response.json()] does. *)
Record HttpResponse : Type := {
  http_status : Z;
  http_json : result pyval
}.

(** The collaborators only the handlers below reach: [receive_text] of a
    WebSocket, [redis_manager.health_check], the GET against the
    identity provider's health URL, and
    [datetime.utcnow().isoformat()]. *)
Record Probes (R X : Type) : Type := {
  ws_receive_text : handle -> X -> result string * X;
  redis_health_check : Z -> R -> result pyval * R;
  supabase_get_health : X -> result HttpResponse * X;
  utcnow_isoformat : Z -> string
}.
Arguments ws_receive_text {R X}.
Arguments redis_health_check {R X}.
Arguments supabase_get_health {R X}.
Arguments utcnow_isoformat {R X}.

Section MoreHandlers.
Context {R X : Type}.
Context (redis_manager : RedisManager R) (io : External X)
        (probes : Probes R X) (cfg : SessionConfig).

(** [response.delete_cookie(key=...)]: the cookie is set again, empty and
    with [max_age = 0]. *)
Definition delete_cookie (r : Response) (key : string) : Response :=
  with_cookie r key "" 0.

(** [POST /logout]. *)
Definition logout (request : Request) : M R X Response :=
  let session_id := default "" (cookie_session_id request) in
  (if negb (String.eqb session_id "") then
     _ <~ (fun w => on_redis (delete_session redis_manager (clock w)
                                             session_id) w) ;;
     ret tt
   else ret tt) ;;;
  ret (delete_cookie
         (JSONResponse 200
            (PyDict [("success", PyBool true);
                     ("message", PyStr "Logout successful")]))
         "session_id").

(** [user is not None]. *)
Definition is_not_none (v : pyval) : bool :=
  match v with PyNone => false | _ => true end.

(** [GET /auth_status]. *)
Definition auth_status (request : Request) : M R X Response :=
  try_except
    (let session_id := default "" (cookie_session_id request) in
     if String.eqb session_id "" then
       ret (JSONResponse 200
              (PyDict [("authenticated", PyBool false);
                       ("message", PyStr "No session found")]))
     else
       refreshed <~ call_redis (CallRefreshSession session_id)
                      (fun now => refresh_session redis_manager now
                                                  session_id) ;;
       if truthy refreshed then
         user <~ get_current_user redis_manager cfg request true ;;
         ret (JSONResponse 200
                (PyDict [("authenticated", PyBool (is_not_none user));
                         ("user", if truthy user then user else PyNone);
                         ("session_status", PyStr "active")]))
       else
         ret (JSONResponse 200
                (PyDict [("authenticated", PyBool false);
                         ("message", PyStr "Session expired or invalid")])))
    (fun e =>
       emit (LogError "Auth status error" (Some e)) ;;;
       ret (JSONResponse 500
              (PyDict [("authenticated", PyBool false);
                       ("error", PyStr (exn_str io e));
                       ("session_status", PyStr "error")]))).

(** The dict the WebSocket endpoint sends: a reply or an error notice. *)
Definition ws_payload (kind : string) (body : pyval) (client_id : string)
  : pyval :=
  PyDict [("type", PyStr kind); ("content", body);
          ("client_id", PyStr client_id)].

(** The [while True] loop of [websocket_endpoint], unrolled [fuel]
    times; running out of fuel returns normally (the socket is still
    open). *)
Fixpoint receive_loop (fuel : nat) (websocket : handle)
    (client_id : string) : M R X unit :=
  match fuel with
  | O => ret tt
  | S fuel' =>
      data <~ on_ext (ws_receive_text probes websocket) ;;
      response <~ on_ext (chatbot_send_message io data) ;;
      _ <~ ConnectionManager.send_message io
             (ws_payload "message" response client_id) client_id ;;
      receive_loop fuel' websocket client_id
  end.

(** The two [except] clauses of [websocket_endpoint] around a body:
    [except WebSocketDisconnect] comes before [except Exception]; an
    exception raised inside a handler leaves the endpoint. *)
Definition ws_handlers (client_id : string) (body : M R X unit)
  : M R X unit :=
  fun w =>
    match body w with
    | (Ok a, w') => (Ok a, w')
    | (Raise WebSocketDisconnect, w') =>
        (ConnectionManager.disconnect client_id ;;; ret tt) w'
    | (Raise e, w') =>
        (emit (LogError "WebSocket error" (Some e)) ;;;
         conns <~ get_connections ;;
         match conns !! client_id with
         | Some _ =>
             _ <~ ConnectionManager.send_message io
                    (ws_payload "error"
                       (PyStr "An error occurred processing your message")
                       client_id) client_id ;;
             ret tt
         | None => ret tt
         end) w'
    end.

(** [websocket_endpoint(websocket, client_id)]. *)
Definition websocket_endpoint (fuel : nat) (websocket : handle)
    (client_id : string) : M R X unit :=
  ws_handlers client_id
    (ConnectionManager.connect io websocket client_id ;;;
     receive_loop fuel websocket client_id).

(** The dict [health_check] returns. *)
Definition health_report (overall timestamp : string)
    (redis_part supabase_status supabase_details : pyval) : pyval :=
  PyDict [("status", PyStr overall);
          ("timestamp", PyStr timestamp);
          ("services",
           PyDict [("redis", redis_part);
                   ("supabase",
                    PyDict [("status", supabase_status);
                            ("details", supabase_details)])])].

(** [GET /health]: the Redis part is computed outside the [try], the
    probe of the identity provider inside it. *)
Definition health_check : M R X pyval :=
  now <~ time_time ;;
  let timestamp := utcnow_isoformat probes now in
  redis_part <~ (fun w => on_redis (redis_health_check probes (clock w)) w) ;;
  try_except
    (response <~ on_ext (supabase_get_health probes) ;;
     if http_status response =? 200 then
       details <~ lift_result (http_json response) ;;
       ret (health_report "healthy" timestamp redis_part
                          (PyStr "healthy") details)
     else
       ret (health_report "degraded" timestamp redis_part
              (PyStr "degraded")
              (PyDict [("status_code", PyNum (http_status response))])))
    (fun e =>
       ret (health_report "unhealthy" timestamp redis_part
              (PyStr "unhealthy")
              (PyDict [("error", PyStr (exn_str io e))]))).
End MoreHandlers.

(** A field of the JSON body of a response. *)
Definition response_field (k : string) (r : Response) : option pyval :=
  match content r with
  | PyDict d => dict_get k d
  | _ => None
  end.

(** The answer of [logout]. *)
Definition logged_out : Response :=
  {| status := 200;
     content := PyDict [("success", PyBool true);
                        ("message", PyStr "Logout successful")];
     cookie := Some ("session_id", "", 0) |}.

(** The overall status [health_check] reports for an outcome of the
    probe of the identity provider. *)
Definition overall_status (probe : result HttpResponse) : string :=
  match probe with
  | Ok response =>
      if http_status response =? 200 then
        match http_json response with
        | Ok _ => "healthy"
        | Raise _ => "unhealthy"
        end
      else "degraded"
  | Raise _ => "unhealthy"
  end.



(** Events that write to the datastore, the queue or the cache. *)
Definition writes (e : event) : bool :=
  match e with
  | CallEnqueueTask _ _ _ => true
  | CallInsertChatMessage _ _ _ => true
  | CallInsertVideoAnalysis _ _ => true
  | CallInvalidateCache _ => true
  | CallSetCache _ _ => true
  | CallSetSession _ _ _ => true
  | _ => false
  end.

(** A second small deployment: the reference manager with a
    [refresh_session] that raises, and a socket whose peer sends one
    message and then hangs up. *)
Module Lab.
Definition broken_refresh : RedisManager RedisStore.state :=
  Build_RedisManager RedisStore.state
    RedisStore.validate_session
    (fun _ _ s => (Raise RedisStore.store_unavailable, s))
    RedisStore.set_session RedisStore.delete_session
    (RedisStore.check_rate_limit Demo.settings) RedisStore.get_cache
    (RedisStore.set_cache Demo.settings) RedisStore.invalidate_cache
    RedisStore.enqueue_task RedisStore.cleanup_expired_sessions.

(** The datastore state doubles as the count of messages received. *)
Definition probes : Probes RedisStore.state Demo.store :=
  {| ws_receive_text :=
       fun _ x =>
         match x with
         | [] => (Ok "ping", [(0%N, PyStr "ping")])
         | _ :: _ => (Raise WebSocketDisconnect, x)
         end;
     redis_health_check :=
       fun _ s => (Ok (PyDict [("status", PyStr "unhealthy")]), s);
     supabase_get_health :=
       fun x => (Ok {| http_status := 200;
                       http_json := Ok (PyDict []) |}, x);
     utcnow_isoformat := fun _ => "2024-01-01T00:00:00" |}.

(** A session whose [last_refresh] is not a number. *)
Definition odd_session : world RedisStore.state Demo.store :=
  World 1100
    (RedisStore.with_sessions
       {[ "s1" := {| RedisStore.sess_data :=
                       PyDict [("id", PyStr "u1");
                               ("last_refresh", PyStr "yesterday")];
                     RedisStore.sess_lifetime := 3600;
                     RedisStore.sess_expires := 4600 |} ]}
       RedisStore.empty)
    [] ∅ [].

Definition video : UploadFile :=
  {| filename := PyStr "clip.mp4"; file_obj := 0%nat |}.

(** The collaborators of the first deployment with another identity
    provider, file storage and chatbot. *)
Definition io_with
    (sign_in : string -> string -> Demo.store -> result pyval * Demo.store)
    (store : string -> pyval -> Demo.store -> result pyval * Demo.store)
    (chatbot : string -> Demo.store -> result pyval * Demo.store)
  : External Demo.store :=
  {| py_str := py_str Demo.io;
     exn_str := exn_str Demo.io;
     uuid_UUID := uuid_UUID Demo.io;
     uuid4 := uuid4 Demo.io;
     token_urlsafe := token_urlsafe Demo.io;
     sign_in_with_password := sign_in;
     get_user_by_email := get_user_by_email Demo.io;
     create_user := create_user Demo.io;
     get_chat_history := get_chat_history Demo.io;
     get_video_analysis_history := get_video_analysis_history Demo.io;
     insert_chat_message := insert_chat_message Demo.io;
     insert_video_analysis := insert_video_analysis Demo.io;
     chatbot_send_message := chatbot;
     chatbot_analyze_video := chatbot_analyze_video Demo.io;
     video_read := video_read Demo.io;
     store_file := store;
     ws_accept := ws_accept Demo.io;
     ws_send_json := ws_send_json Demo.io |}.

(** A file storage that refuses every file. *)
Definition io_full_disk : External Demo.store :=
  io_with (sign_in_with_password Demo.io)
          (fun _ _ x => (Ok (PyBool false), x))
          (chatbot_send_message Demo.io).

(** An identity provider that knows nobody. *)
Definition io_no_user : External Demo.store :=
  io_with (fun _ _ x => (Ok PyNone, x)) (store_file Demo.io)
          (chatbot_send_message Demo.io).


(** Client "c1" is registered with socket 2; [received] is what the
    datastore already holds. *)
Definition connected (received : Demo.store)
  : world RedisStore.state Demo.store :=
  World 1000 RedisStore.empty received {[ "c1" := 2%nat ]} [].

(** A logged-in user whose id is a number, which [uuid.UUID] rejects. *)
Definition numeric_id : world RedisStore.state Demo.store :=
  World 1100
    (RedisStore.with_sessions
       {[ "s1" := {| RedisStore.sess_data :=
                       PyDict [("id", PyNum 7);
                               ("last_refresh", PyNum 1000)];
                     RedisStore.sess_lifetime := 3600;
                     RedisStore.sess_expires := 4600 |} ]}
       RedisStore.empty)
    [] ∅ [].

(** A chatbot that is down. *)
Definition io_no_chatbot : External Demo.store :=
  io_with (sign_in_with_password Demo.io) (store_file Demo.io)
          (fun _ x => (Raise (PyError "ConnectionError" "chatbot"), x)).
End Lab.

(* ================================================================== *)
(** * Stepping through handler code                                    *)
(* ================================================================== *)

Lemma new_events_app {R X : Type} (w w' : world R X) (l : list event) :
  log w' = (log w ++ l)%list -> new_events w w' = l.
Proof.
  intros E. unfold new_events. rewrite E. apply drop_app_length.
Qed.

Ltac run :=
  unfold call_redis, call_ext, lift_result, bind, ret, raise, emit,
    time_time, on_redis, on_ext, get_connections, set_connections,
    try_except; simpl.

(* ================================================================== *)
(** * Connection registry                                              *)
(* ================================================================== *)

Section RegistryFacts.
Context {R X : Type} (io : External X).
Import ConnectionManager.

Lemma connect_accepted (ws : handle) (c : string) (w : world R X)
    (v : pyval) (x' : X) :
  ws_accept io ws (ext w) = (Ok v, x') ->
  connect io ws c w =
    (Ok PyNone,
     World (clock w) (redis w) x' (<[c := ws]> (active_connections w))
           (log w ++ [CallAccept ws])).
Proof.
  intros H. unfold connect. run. rewrite H. reflexivity.
Qed.

Lemma send_message_absent (msg : pyval) (c : string) (w : world R X) :
  active_connections w !! c = None ->
  send_message io msg c w = (Ok PyNone, w).
Proof.
  intros H. unfold send_message. run. rewrite H. reflexivity.
Qed.

Lemma send_message_present (msg : pyval) (c : string) (h : handle)
    (w : world R X) :
  active_connections w !! c = Some h ->
  fst (send_message io msg c w) =
    match fst (ws_send_json io h msg (ext w)) with
    | Ok _ => Ok PyNone
    | Raise e => Raise e
    end
  /\ sent_by io msg c w = [CallSendJson h msg].
Proof.
  intros H. unfold sent_by, send_message. run. rewrite H. simpl.
  destruct (ws_send_json io h msg (ext w)) as [[v|e] x']; simpl;
    rewrite drop_app_length; auto.
Qed.

(** C6: after any sequence of connects and disconnects, a connect whose
    socket accepts returns without error whatever was registered
    before, leaves exactly that handle under the client id (the
    registry never holds two handles for one id), and a send to that id
    is delivered through the new handle and no other. *)
Theorem registry_one_handle_per_client :
  forall (ops : list registry_op) (w : world R X) (ws : handle)
         (c : string) (msg v : pyval) (x' : X),
    ws_accept io ws (ext (run_ops io ops w)) = (Ok v, x') ->
    let w0 := run_ops io ops w in
    let w1 := snd (connect io ws c w0) in
    fst (connect io ws c w0) = Ok PyNone
    /\ active_connections w1 = <[c := ws]> (active_connections w0)
    /\ (forall h, (c, h) ∈ map_to_list (active_connections w1) <-> h = ws)
    /\ sent_by io msg c w1 = [CallSendJson ws msg]
    /\ (forall c' h1 h2,
           (c', h1) ∈ map_to_list (active_connections w0) ->
           (c', h2) ∈ map_to_list (active_connections w0) -> h1 = h2).
Proof.
  intros ops w ws c msg v x' Hacc w0 w1.
  pose proof (connect_accepted ws c w0 v x' Hacc) as Hc.
  subst w1. rewrite Hc. simpl.
  split; [reflexivity|]. split; [reflexivity|]. split.
  - intros h. rewrite elem_of_map_to_list, lookup_insert_eq.
    split; [intros [= ->]; reflexivity | intros ->; reflexivity].
  - split.
    + apply send_message_present. simpl. apply lookup_insert_eq.
    + intros c' h1 h2 H1 H2.
      apply elem_of_map_to_list in H1, H2. congruence.
Qed.

(** C7 (as amended): for an unregistered client id [send_message]
    delivers nothing, does not raise, and returns [None]; for a
    registered id it calls [send_json] on the registered handle once and
    also returns [None] when that call returns. *)
Theorem send_message_returns_none :
  forall (msg : pyval) (c : string) (w : world R X),
    match active_connections w !! c with
    | None => send_message io msg c w = (Ok PyNone, w)
    | Some h =>
        sent_by io msg c w = [CallSendJson h msg]
        /\ fst (send_message io msg c w) =
             match fst (ws_send_json io h msg (ext w)) with
             | Ok _ => Ok PyNone
             | Raise e => Raise e
             end
    end.
Proof.
  intros msg c w.
  destruct (active_connections w !! c) as [h|] eqn:E.
  - destruct (send_message_present msg c h w E); auto.
  - apply send_message_absent; exact E.
Qed.
End RegistryFacts.

(** Witness of C6 on the small deployment: client "c1" reconnects with
    socket 2 after socket 1. *)
Lemma registry_one_handle_per_client_witness :
  active_connections
    (snd (ConnectionManager.connect Demo.io 2%nat "c1"
            (ConnectionManager.run_ops Demo.io
               [ConnectionManager.Connect 1%nat "c1"] Demo.start)))
  = <[ "c1" := 2%nat ]>
      (active_connections
         (ConnectionManager.run_ops Demo.io
            [ConnectionManager.Connect 1%nat "c1"] Demo.start))
  /\ ConnectionManager.sent_by Demo.io (PyStr "hi") "c1"
       (snd (ConnectionManager.connect Demo.io 2%nat "c1"
               (ConnectionManager.run_ops Demo.io
                  [ConnectionManager.Connect 1%nat "c1"] Demo.start)))
     = [CallSendJson 2%nat (PyStr "hi")].
Proof.
  pose proof (registry_one_handle_per_client Demo.io
                [ConnectionManager.Connect 1%nat "c1"] Demo.start 2%nat
                "c1" (PyStr "hi") PyNone [] eq_refl) as H.
  simpl in H. destruct H as (_ & H2 & _ & H4 & _).
  split; [exact H2 | exact H4].
Defined.

(** Counterexample to C7 as stated: with nobody registered, the send to
    "c1" returns [None], which is not the boolean [False]. *)
Lemma send_message_absent_not_false :
  active_connections Demo.start !! "c1" = None
  /\ fst (ConnectionManager.send_message Demo.io (PyStr "hi") "c1"
            Demo.start) = Ok PyNone
  /\ fst (ConnectionManager.send_message Demo.io (PyStr "hi") "c1"
            Demo.start) <> Ok (PyBool false).
Proof.
  split; [reflexivity|]. split; [reflexivity|].
  intros H. discriminate H.
Qed.

(* ================================================================== *)
(** * Session validation                                               *)
(* ================================================================== *)

Section ValidationFacts.
Context {R X : Type}.
Context (mgr : RedisManager R) (cfg : SessionConfig).

(** C1: whatever the session key, when the cookie is missing or empty,
    or [validate_session] raises, or reports the session absent, or
    hands back a record that is not a dict or lacks ['id'],
    [get_current_user] returns [None] if [return_none] is set and
    raises [HTTPException(401)] otherwise; no other exception leaves
    it. *)
Theorem get_current_user_rejects_invalid_session :
  forall (request : Request) (return_none : bool) (w : world R X),
    let session_id := default "" (cookie_session_id request) in
    session_id = ""
    \/ rejected (fst (validate_session mgr (clock w) session_id (redis w)))
       = true ->
    fst (get_current_user mgr cfg request return_none w) =
      if return_none then Ok PyNone
      else Raise (HTTPException 401 "Authentication error").
Proof.
  intros request return_none w session_id H.
  unfold get_current_user. fold session_id. run.
  destruct (String.eqb session_id "") eqn:Eempty.
  { destruct return_none; reflexivity. }
  destruct H as [H|H].
  { apply String.eqb_neq in Eempty. contradiction. }
  destruct (validate_session mgr (clock w) session_id (redis w))
    as [[[is_valid session_data]|e] r']; simpl in *.
  - destruct (truthy is_valid); simpl in *.
    + destruct (truthy session_data) eqn:Edata; simpl in *.
      * destruct session_data; simpl in *;
          try (destruct return_none; reflexivity); try discriminate.
        rewrite H. simpl. destruct return_none; reflexivity.
      * destruct return_none; reflexivity.
    + destruct return_none; reflexivity.
  - destruct return_none; reflexivity.
Qed.
End ValidationFacts.

(** Witness of C1: on the small deployment no session was ever created,
    so the key "gone" is rejected. *)
Lemma get_current_user_rejects_invalid_session_witness :
  rejected (fst (validate_session Demo.manager (clock Demo.start) "gone"
                   (redis Demo.start))) = true
  /\ fst (get_current_user Demo.manager Demo.cfg
            (Demo.request "gone") true Demo.start) = Ok PyNone
  /\ fst (get_current_user Demo.manager Demo.cfg
            (Demo.request "gone") false Demo.start)
     = Raise (HTTPException 401 "Authentication error").
Proof.
  split; [reflexivity|]. split.
  - apply (get_current_user_rejects_invalid_session Demo.manager
             Demo.cfg (Demo.request "gone") true Demo.start).
    right. reflexivity.
  - apply (get_current_user_rejects_invalid_session Demo.manager
             Demo.cfg (Demo.request "gone") false Demo.start).
    right. reflexivity.
Defined.

Lemma dict_get_set_same (k : string) (v : pyval) (d : list (string * pyval)) :
  dict_get k (dict_set k v d) = Some v.
Proof.
  induction d as [|[k' v'] d IH]; simpl.
  - rewrite String.eqb_refl. reflexivity.
  - destruct (String.eqb k k') eqn:E; simpl.
    + rewrite String.eqb_refl. reflexivity.
    + rewrite E. exact IH.
Qed.

Lemma dict_get_set_other (k k' : string) (v : pyval)
    (d : list (string * pyval)) :
  k <> k' -> dict_get k' (dict_set k v d) = dict_get k' d.
Proof.
  intros Hne. induction d as [|[k0 v0] d IH]; simpl.
  - destruct (String.eqb k' k) eqn:E; [|reflexivity].
    apply String.eqb_eq in E. congruence.
  - destruct (String.eqb k k0) eqn:E; simpl.
    + apply String.eqb_eq in E. subst k0.
      destruct (String.eqb k' k) eqn:E'; [|reflexivity].
      apply String.eqb_eq in E'. congruence.
    + destruct (String.eqb k' k0); [reflexivity | exact IH].
Qed.

Section RefreshGate.
Context {R X : Type}.
Context (mgr : RedisManager R) (cfg : SessionConfig).

(** For a session [validate_session] reports valid, with a numeric
    [last_refresh] of [t], validation at time [now] calls
    [refresh_session] exactly when [now - t] exceeds the threshold, and
    then once. *)
Lemma refresh_iff_past_threshold :
  forall (request : Request) (return_none : bool) (w : world R X)
         (sid : string) (is_valid : pyval) (d : list (string * pyval))
         (t : Z) (r1 : R),
    cookie_session_id request = Some sid ->
    sid <> "" ->
    validate_session mgr (clock w) sid (redis w)
      = (Ok (is_valid, PyDict d), r1) ->
    truthy is_valid = true ->
    dict_mem "id" d = true ->
    as_number (default (PyNum 0) (dict_get "last_refresh" d)) = Some t ->
    refresh_calls
      (new_events w (snd (get_current_user mgr cfg request return_none w)))
    = if SESSION_REFRESH_THRESHOLD cfg <? clock w - t then [sid] else [].
Proof.
  intros request return_none w sid is_valid d t r1 Hc Hne Hv Hiv Hid Ht.
  unfold get_current_user. rewrite Hc. simpl. run.
  apply String.eqb_neq in Hne. rewrite Hne. rewrite Hv. simpl.
  rewrite Hiv. simpl.
  assert (Hd : match d with [] => false | _ :: _ => true end = true).
  { destruct d; [discriminate Hid | reflexivity]. }
  rewrite Hd, Hid. simpl. rewrite Ht.
  destruct (SESSION_REFRESH_THRESHOLD cfg <? clock w - t); simpl.
  - destruct (refresh_session mgr (clock w) sid r1) as [[v|e] r2]; simpl.
    + erewrite new_events_app; [|simpl; rewrite <- app_assoc; reflexivity].
      reflexivity.
    + destruct return_none; simpl;
        (erewrite new_events_app;
         [|simpl; rewrite <- !app_assoc; reflexivity]); reflexivity.
  - erewrite new_events_app; [|simpl; reflexivity]. reflexivity.
Qed.
End RefreshGate.

Section ValidSession.
Context {R X : Type}.
Context (mgr : RedisManager R) (cfg : SessionConfig).

(** What [get_current_user] does on a session reported valid. *)
Lemma get_current_user_valid :
  forall (request : Request) (return_none : bool) (w : world R X)
         (sid : string) (is_valid : pyval) (d : list (string * pyval))
         (t : Z) (r1 : R),
    cookie_session_id request = Some sid ->
    sid <> "" ->
    validate_session mgr (clock w) sid (redis w)
      = (Ok (is_valid, PyDict d), r1) ->
    truthy is_valid = true ->
    dict_mem "id" d = true ->
    as_number (default (PyNum 0) (dict_get "last_refresh" d)) = Some t ->
    get_current_user mgr cfg request return_none w =
      if SESSION_REFRESH_THRESHOLD cfg <? clock w - t then
        match refresh_session mgr (clock w) sid r1 with
        | (Ok _, r2) =>
            (Ok (PyDict d),
             World (clock w) r2 (ext w) (active_connections w)
                   (log w ++ [CallValidateSession sid;
                              CallRefreshSession sid]))
        | (Raise e, r2) =>
            (if return_none then Ok PyNone
             else Raise (HTTPException 401 "Authentication error"),
             World (clock w) r2 (ext w) (active_connections w)
                   (log w ++ [CallValidateSession sid;
                              CallRefreshSession sid;
                              LogError "Error in get_current_user"
                                       (Some e)]))
        end
      else
        (Ok (PyDict d),
         World (clock w) r1 (ext w) (active_connections w)
               (log w ++ [CallValidateSession sid])).
Proof.
  intros request return_none w sid is_valid d t r1 Hc Hne Hv Hiv Hid Ht.
  unfold get_current_user. rewrite Hc. simpl. run.
  apply String.eqb_neq in Hne. rewrite Hne. rewrite Hv. simpl.
  rewrite Hiv. simpl.
  assert (Hd : match d with [] => false | _ :: _ => true end = true).
  { destruct d; [discriminate Hid | reflexivity]. }
  rewrite Hd, Hid. simpl. rewrite Ht.
  destruct (SESSION_REFRESH_THRESHOLD cfg <? clock w - t); simpl.
  - destruct (refresh_session mgr (clock w) sid r1) as [[v|e] r2]; simpl.
    + rewrite <- app_assoc. reflexivity.
    + destruct return_none; simpl; rewrite <- !app_assoc; reflexivity.
  - reflexivity.
Qed.
End ValidSession.

Section SlidingRefresh.
Context {X : Type} (st : RedisStore.settings) (cfg : SessionConfig).

(** The scenario of the design document on the reference manager: a
    live, well-formed session whose [last_refresh] is [t] is validated
    past the threshold, then again [dt] later, within the threshold and
    before expiry. *)
Lemma two_validations_refresh_once :
  forall (request : Request) (return_none : bool)
         (w : world RedisStore.state X) (sid : string)
         (r : RedisStore.session_record) (d : list (string * pyval))
         (t dt : Z),
    cookie_session_id request = Some sid ->
    sid <> "" ->
    RedisStore.store_up (redis w) = true ->
    RedisStore.sessions (redis w) !! sid = Some r ->
    RedisStore.sess_data r = PyDict d ->
    dict_mem "id" d = true ->
    dict_get "last_refresh" d = Some (PyNum t) ->
    clock w < RedisStore.sess_expires r ->
    SESSION_REFRESH_THRESHOLD cfg < clock w - t ->
    0 <= dt <= SESSION_REFRESH_THRESHOLD cfg ->
    dt < RedisStore.sess_lifetime r ->
    let first :=
      get_current_user (RedisStore.manager st) cfg request return_none w in
    let second :=
      get_current_user (RedisStore.manager st) cfg request return_none
                       (tick dt (snd first)) in
    fst first = Ok (PyDict d)
    /\ fst second
       = Ok (PyDict (dict_set "last_refresh" (PyNum (clock w)) d))
    /\ refresh_calls (new_events w (snd first)) = [sid]
    /\ refresh_calls (new_events (tick dt (snd first)) (snd second)) = []
    /\ t < clock w
    /\ stored_last_refresh sid (redis w) = Some (PyNum t)
    /\ stored_last_refresh sid (redis (snd first)) = Some (PyNum (clock w))
    /\ stored_last_refresh sid (redis (snd second))
       = Some (PyNum (clock w)).
Proof.
  intros request return_none w sid r d t dt Hc Hne Hup Hs Hd Hid Hlr
         Hlive Hpast Hdt Hlife first second.
  assert (Hlv : RedisStore.live_session (clock w) sid (redis w) = Some r).
  { unfold RedisStore.live_session. rewrite Hs.
    destruct (Z.ltb_spec (clock w) (RedisStore.sess_expires r));
      [reflexivity | lia]. }
  assert (Hval : validate_session (RedisStore.manager st) (clock w) sid
                   (redis w) = (Ok (PyBool true, PyDict d), redis w)).
  { simpl. unfold RedisStore.validate_session. rewrite Hup, Hlv, Hd.
    simpl. rewrite Hid. reflexivity. }
  assert (Hnum : as_number (default (PyNum 0) (dict_get "last_refresh" d))
                 = Some t).
  { rewrite Hlr. reflexivity. }
  pose proof (get_current_user_valid (RedisStore.manager st) cfg request
                return_none w sid (PyBool true) d t (redis w) Hc Hne Hval
                eq_refl Hid Hnum) as E1.
  destruct (Z.ltb_spec (SESSION_REFRESH_THRESHOLD cfg) (clock w - t));
    [|lia].
  simpl in E1. unfold RedisStore.refresh_session in E1.
  rewrite Hup, Hlv, Hd in E1. simpl in E1.
  set (r' := {| RedisStore.sess_data :=
                  PyDict (dict_set "last_refresh" (PyNum (clock w)) d);
                RedisStore.sess_lifetime := RedisStore.sess_lifetime r;
                RedisStore.sess_expires :=
                  clock w + RedisStore.sess_lifetime r |}) in *.
  set (d' := dict_set "last_refresh" (PyNum (clock w)) d) in *.
  assert (Hid' : dict_mem "id" d' = true).
  { unfold dict_mem, d'. rewrite dict_get_set_other by discriminate.
    exact Hid. }
  assert (Hlr' : dict_get "last_refresh" d' = Some (PyNum (clock w))).
  { apply dict_get_set_same. }
  remember (tick dt (snd first)) as w2 eqn:Ew2.
  assert (Hw2 : redis w2
                = RedisStore.with_sessions
                    (<[sid := r']> (RedisStore.sessions (redis w)))
                    (redis w)
                /\ clock w2 = clock w + dt).
  { rewrite Ew2. unfold first. rewrite E1. simpl. auto. }
  destruct Hw2 as [Hr2 Hc2].
  assert (Hlv2 : RedisStore.live_session (clock w2) sid (redis w2)
                 = Some r').
  { unfold RedisStore.live_session. rewrite Hr2, Hc2. simpl.
    rewrite lookup_insert_eq. simpl.
    destruct (Z.ltb_spec (clock w + dt)
                         (clock w + RedisStore.sess_lifetime r));
      [reflexivity | lia]. }
  assert (Hup2 : RedisStore.store_up (redis w2) = true).
  { rewrite Hr2. exact Hup. }
  assert (Hval2 : validate_session (RedisStore.manager st) (clock w2) sid
                    (redis w2) = (Ok (PyBool true, PyDict d'), redis w2)).
  { simpl. unfold RedisStore.validate_session. rewrite Hup2, Hlv2.
    simpl. fold d'. rewrite Hid'. reflexivity. }
  assert (Hnum2 : as_number (default (PyNum 0)
                               (dict_get "last_refresh" d'))
                  = Some (clock w)).
  { rewrite Hlr'. reflexivity. }
  pose proof (get_current_user_valid (RedisStore.manager st) cfg request
                return_none w2 sid (PyBool true) d' (clock w) (redis w2)
                Hc Hne Hval2 eq_refl Hid' Hnum2) as E2.
  destruct (Z.ltb_spec (SESSION_REFRESH_THRESHOLD cfg)
                       (clock w2 - clock w)); [lia|].
  fold first in E1. subst second. try rewrite <- Ew2.
  rewrite E2. rewrite E1. simpl.
  repeat split.
  - erewrite new_events_app; [|simpl; reflexivity]. reflexivity.
  - erewrite new_events_app; [|simpl; reflexivity]. reflexivity.
  - lia.
  - unfold stored_last_refresh. rewrite Hs, Hd. exact Hlr.
  - unfold stored_last_refresh. simpl. rewrite lookup_insert_eq. simpl.
    exact Hlr'.
  - unfold stored_last_refresh. rewrite Hr2. simpl.
    rewrite lookup_insert_eq. simpl. exact Hlr'.
Qed.
End SlidingRefresh.

(** C2: for a valid session whose last refresh was at [t], a validation
    at time [now] calls [refresh_session] if and only if
    [now - t > SESSION_REFRESH_THRESHOLD] (and then once); and on the
    reference manager, of two validations of which only the first is past
    the threshold, the first moves the stored [last_refresh] from [t] to
    its own time and the second leaves it there. *)
Theorem validation_refreshes_iff_past_threshold :
  (forall (R X : Type) (mgr : RedisManager R) (cfg : SessionConfig)
          (request : Request) (return_none : bool) (w : world R X)
          (sid : string) (is_valid : pyval) (d : list (string * pyval))
          (t : Z) (r1 : R),
      cookie_session_id request = Some sid ->
      sid <> "" ->
      validate_session mgr (clock w) sid (redis w)
        = (Ok (is_valid, PyDict d), r1) ->
      truthy is_valid = true ->
      dict_mem "id" d = true ->
      as_number (default (PyNum 0) (dict_get "last_refresh" d)) = Some t ->
      refresh_calls
        (new_events w (snd (get_current_user mgr cfg request return_none w)))
      = if SESSION_REFRESH_THRESHOLD cfg <? clock w - t then [sid] else [])
  /\ (forall (X : Type) (st : RedisStore.settings) (cfg : SessionConfig)
             (request : Request) (return_none : bool)
             (w : world RedisStore.state X) (sid : string)
             (r : RedisStore.session_record) (d : list (string * pyval))
             (t dt : Z),
         cookie_session_id request = Some sid ->
         sid <> "" ->
         RedisStore.store_up (redis w) = true ->
         RedisStore.sessions (redis w) !! sid = Some r ->
         RedisStore.sess_data r = PyDict d ->
         dict_mem "id" d = true ->
         dict_get "last_refresh" d = Some (PyNum t) ->
         clock w < RedisStore.sess_expires r ->
         SESSION_REFRESH_THRESHOLD cfg < clock w - t ->
         0 <= dt <= SESSION_REFRESH_THRESHOLD cfg ->
         dt < RedisStore.sess_lifetime r ->
         let first :=
           get_current_user (RedisStore.manager st) cfg request
                            return_none w in
         let second :=
           get_current_user (RedisStore.manager st) cfg request
                            return_none (tick dt (snd first)) in
         fst first = Ok (PyDict d)
         /\ fst second
            = Ok (PyDict (dict_set "last_refresh" (PyNum (clock w)) d))
         /\ refresh_calls (new_events w (snd first)) = [sid]
         /\ refresh_calls (new_events (tick dt (snd first)) (snd second))
            = []
         /\ t < clock w
         /\ stored_last_refresh sid (redis w) = Some (PyNum t)
         /\ stored_last_refresh sid (redis (snd first))
            = Some (PyNum (clock w))
         /\ stored_last_refresh sid (redis (snd second))
            = Some (PyNum (clock w))).
Proof.
  split.
  - intros. eapply refresh_iff_past_threshold; eassumption.
  - intros. eapply two_validations_refresh_once; eassumption.
Qed.

(** Witness of C2: session "s1", created at 1000 with lifetime 3600 and
    threshold 300, is validated at 1301 and again at 1401. *)
Lemma validation_refreshes_iff_past_threshold_witness :
  refresh_calls
    (new_events (Demo.logged_in 1301)
       (snd (get_current_user Demo.manager Demo.cfg (Demo.request "s1")
               false (Demo.logged_in 1301))))
  = ["s1"]
  /\ refresh_calls
       (new_events (Demo.logged_in 1200)
          (snd (get_current_user Demo.manager Demo.cfg (Demo.request "s1")
                  false (Demo.logged_in 1200))))
     = []
  /\ stored_last_refresh "s1"
       (redis (snd (get_current_user Demo.manager Demo.cfg
                      (Demo.request "s1") false
                      (tick 100
                         (snd (get_current_user Demo.manager Demo.cfg
                                 (Demo.request "s1") false
                                 (Demo.logged_in 1301)))))))
     = Some (PyNum 1301).
Proof.
  destruct validation_refreshes_iff_past_threshold as [gate twice].
  split; [|split].
  - apply (gate _ _ Demo.manager Demo.cfg (Demo.request "s1") false
             (Demo.logged_in 1301) "s1" (PyBool true) Demo.claims 1000
             (redis (Demo.logged_in 1301)));
      first [reflexivity | discriminate].
  - apply (gate _ _ Demo.manager Demo.cfg (Demo.request "s1") false
             (Demo.logged_in 1200) "s1" (PyBool true) Demo.claims 1000
             (redis (Demo.logged_in 1200)));
      first [reflexivity | discriminate].
  - pose proof (twice _ Demo.settings Demo.cfg (Demo.request "s1")
                  false (Demo.logged_in 1301) "s1"
                  {| RedisStore.sess_data := PyDict Demo.claims;
                     RedisStore.sess_lifetime := 3600;
                     RedisStore.sess_expires := 4600 |}
                  Demo.claims 1000 100
                  eq_refl ltac:(discriminate) eq_refl eq_refl eq_refl
                  eq_refl eq_refl ltac:(simpl; lia) ltac:(simpl; lia)
                  ltac:(simpl; lia) ltac:(simpl; lia)) as H.
    simpl in H. apply H.
Defined.

(* ================================================================== *)
(** * Login                                                            *)
(* ================================================================== *)

Ltac events :=
  unfold new_events; simpl; rewrite <- ?app_assoc; simpl;
  rewrite ?drop_app_length.

(** Closes a path of [login_post] that ends in a 400 before any session
    write was attempted. *)
Ltac no_write :=
  eexists; split; [reflexivity|]; simpl; split; [reflexivity|];
  let Hin := fresh "Hin" in
  intros ? ? Hin; exfalso; revert Hin; events; simpl;
  intuition discriminate.

Section LoginFacts.
Context {R X : Type}.
Context (mgr : RedisManager R) (io : External X) (cfg : SessionConfig).

(** C9: [login_post] always answers with a response.  A response that
    carries the session cookie is a 200 whose [set_session] call returned
    a truthy value; every other response is a 400 without cookie.  In
    particular, when the login reaches [set_session] and the write is not
    confirmed (a falsy result or an exception), the caller gets the 400
    error body carrying the failure and no cookie. *)
Theorem login_cookie_only_after_confirmed_write :
  forall (request : Request) (email password : string) (w : world R X),
    let run := login_post mgr io cfg request email password w in
    let after_limit :=
      snd (check_rate_limit mgr (clock w) "login"
             (default "" (client_host request)) (redis w)) in
    exists resp : Response,
      fst run = Ok resp
      /\ match cookie resp with
         | Some c =>
             status resp = 200
             /\ exists sid data,
                 c = ("session_id", sid, SESSION_LIFETIME cfg)
                 /\ In (CallSetSession sid data (SESSION_LIFETIME cfg))
                       (new_events w (snd run))
                 /\ confirmed
                      (fst (set_session mgr (clock w) sid data
                              (SESSION_LIFETIME cfg) after_limit)) = true
         | None => status resp = 400
         end
      /\ forall sid data,
           In (CallSetSession sid data (SESSION_LIFETIME cfg))
              (new_events w (snd run)) ->
           confirmed
             (fst (set_session mgr (clock w) sid data
                     (SESSION_LIFETIME cfg) after_limit)) = false ->
           cookie resp = None
           /\ status resp = 400
           /\ content resp =
                PyDict [("success", PyBool false);
                        ("message",
                         PyStr (exn_str io
                                  (write_failure
                                     (fst (set_session mgr (clock w) sid
                                             data (SESSION_LIFETIME cfg)
                                             after_limit)))))].
Proof.
  intros request email password w run after_limit.
  subst run after_limit. unfold login_post, get_method. run.
  destruct (client_host request) as [host|]; simpl; [|no_write].
  destruct (check_rate_limit mgr (clock w) "login" host (redis w))
    as [[allowed|e] r1]; simpl; [|no_write].
  destruct (truthy allowed); simpl; [|no_write].
  destruct (sign_in_with_password io email password (ext w))
    as [[auth_user|e] x1]; simpl; [|no_write].
  destruct (truthy auth_user); simpl; [|no_write].
  destruct (get_user_by_email io email x1) as [[found|e] x2]; simpl;
    [|no_write].
  destruct (truthy found); simpl;
    [|destruct (create_user io email x2) as [[found'|e] x3]; simpl;
      [|no_write]].
  all: match goal with
       | |- context [token_urlsafe io ?x] =>
           destruct (token_urlsafe io x) as [[sid|e] x4]; simpl;
           [|no_write]
       end.
  all: match goal with
       | |- context [match ?user with PyDict _ => _ | _ => _ end] =>
           destruct user; simpl; try no_write
       end.
  all: match goal with
       | |- context [set_session mgr ?now ?key ?data ?life ?r] =>
           destruct (set_session mgr now key data life r)
             as [[v|e] r2] eqn:Eset; simpl;
           [destruct (truthy v) eqn:Ev; simpl|]
       end.
  all: eexists; (split; [reflexivity|]); simpl.
  all: split;
    [ first [ reflexivity
            | split; [reflexivity|]; do 2 eexists;
              (split; [reflexivity|]); events;
              split; [simpl; auto 10 | rewrite Eset; simpl; exact Ev] ]
    | intros sid' data' Hin Hnot; revert Hin Hnot; events; simpl;
      intros Hin Hnot;
      repeat (destruct Hin as [Hin|Hin]; try discriminate Hin);
      try contradiction;
      injection Hin as <- <-; revert Hnot; rewrite Eset; simpl;
      first [congruence | auto] ].
Qed.
End LoginFacts.

(** Witness of C9: with the store down and the limiter failing open, the
    login of a known user reaches [set_session], which answers [False];
    the response is the 400 error body and carries no cookie. *)
Lemma login_cookie_only_after_confirmed_write_witness :
  exists resp : Response,
    fst (login_post (RedisStore.manager Demo.settings_open) Demo.io Demo.cfg
           (Demo.request "") "a@b.c" "pw" Demo.outage) = Ok resp
    /\ cookie resp = None
    /\ status resp = 400
    /\ content resp =
         PyDict [("success", PyBool false);
                 ("message", PyStr "Failed to create session")].
Proof.
  destruct (login_cookie_only_after_confirmed_write
              (RedisStore.manager Demo.settings_open) Demo.io Demo.cfg
              (Demo.request "") "a@b.c" "pw" Demo.outage)
    as (resp & Hrun & _ & Hfail).
  exists resp. split; [exact Hrun|].
  apply (Hfail "token-1"
           (PyDict [("id", PyStr "u1"); ("email", PyStr "a@b.c");
                    ("last_refresh", PyNum 1000)])).
  - vm_compute. auto 10.
  - reflexivity.
Defined.

(* ================================================================== *)
(** * History endpoints                                                *)
(* ================================================================== *)

Section HistoryFacts.
Context {R X : Type}.
Context (mgr : RedisManager R) (io : External X) (cfg : SessionConfig).

Lemma history_endpoint_falsy_is_a_miss
    (key_of : pyval -> string) (info : string) (query_event : N -> event)
    (query : N -> X -> result pyval * X) :
  falsy_is_a_miss mgr io cfg
    (history_endpoint mgr io cfg key_of info query_event query)
    key_of info query_event query.
Proof.
  intros request w w1 d uid cached r2 Huser Hid Hcache.
  assert (Hd : truthy (PyDict d) = true).
  { destruct d; [discriminate Hid | reflexivity]. }
  assert (Hstart :
    forall k : pyval -> M R X Response,
      bind (get_current_user mgr cfg request false) k w = k (PyDict d) w1).
  { intros k. unfold bind. rewrite Huser. reflexivity. }
  unfold history_endpoint. rewrite Hstart, Hd.
  unfold getitem. rewrite Hid. run. rewrite Hcache. simpl.
  destruct (truthy cached); simpl.
  - rewrite <- app_assoc. reflexivity.
  - intros u history stored x3 r3 Hu Hq Hs.
    rewrite Hu. simpl. rewrite Hq. simpl. rewrite Hs. simpl.
    rewrite <- !app_assoc. reflexivity.
Qed.

(** C10: in [GET /chat_history] and [GET /video_analysis_history] a
    cached value is served only when it is truthy; a falsy one (absent,
    [None], or an empty list) is a miss: the history is read from the
    datastore, written back to the cache and returned. *)
Theorem history_endpoints_treat_falsy_cache_as_miss :
  falsy_is_a_miss mgr io cfg (get_chat_history_endpoint mgr io cfg)
    (chat_history_key io) "Returning cached chat history for user "
    CallGetChatHistory (get_chat_history io)
  /\ falsy_is_a_miss mgr io cfg
       (get_video_analysis_history_endpoint mgr io cfg)
       (video_history_key io) "Returning cached video history for user "
       CallGetVideoAnalysisHistory (get_video_analysis_history io)
  /\ truthy PyNone = false
  /\ truthy (PyList []) = false.
Proof.
  split; [|split; [|split; reflexivity]].
  - apply history_endpoint_falsy_is_a_miss.
  - apply history_endpoint_falsy_is_a_miss.
Qed.
End HistoryFacts.

(** Witness of C10: with an empty list cached for user "u1", the chat
    history endpoint answers with the row held by the datastore; with a
    non-empty list cached, it answers with the cached list. *)
Lemma history_endpoints_treat_falsy_cache_as_miss_witness :
  fst (get_chat_history_endpoint Demo.manager Demo.io Demo.cfg
         (Demo.request "s1") (Demo.with_cached (PyList [])))
  = Ok (JSONResponse 200 (PyDict [("history", PyList [PyStr "hi"])]))
  /\ fst (get_chat_history_endpoint Demo.manager Demo.io Demo.cfg
            (Demo.request "s1") (Demo.with_cached (PyList [PyStr "old"])))
     = Ok (JSONResponse 200 (PyDict [("history", PyList [PyStr "old"])])).
Proof.
  destruct (history_endpoints_treat_falsy_cache_as_miss Demo.manager
              Demo.io Demo.cfg) as (Hchat & _).
  split.
  - pose proof (Hchat (Demo.request "s1") (Demo.with_cached (PyList []))
                  _ Demo.claims (PyStr "u1") (PyList []) _
                  eq_refl eq_refl eq_refl) as H.
    simpl in H.
    rewrite (H 2%N (PyList [PyStr "hi"]) (PyBool true) _ _
               eq_refl eq_refl eq_refl).
    reflexivity.
  - pose proof (Hchat (Demo.request "s1")
                  (Demo.with_cached (PyList [PyStr "old"]))
                  _ Demo.claims (PyStr "u1") (PyList [PyStr "old"]) _
                  eq_refl eq_refl eq_refl) as H.
    simpl in H. rewrite H. reflexivity.
Defined.

(* ================================================================== *)
(** * Session sweeper                                                  *)
(* ================================================================== *)

Section SweeperFacts.
Context {R X : Type}.
Context (mgr : RedisManager R) (cfg : SessionConfig).

(** A sweep that raises ends the loop: the exception leaves
    [cleanup_sessions], nothing is logged and there is no further sweep,
    however long the loop would have run. *)
Lemma cleanup_sessions_ends_on_failure :
  forall (fuel : nat) (w : world R X) (e : exn) (r' : R),
    cleanup_expired_sessions mgr (clock w) (redis w) = (Raise e, r') ->
    cleanup_sessions mgr cfg (S fuel) w =
      (Raise e,
       World (clock w) r' (ext w) (active_connections w)
             (log w ++ [CallCleanupExpiredSessions])).
Proof.
  intros fuel w e r' H. simpl. unfold cleanup_iteration. run.
  rewrite H. reflexivity.
Qed.

End SweeperFacts.

(** C8 (what the code does at the failing input): with the store
    unreachable the first sweep of the reference manager raises
    [StoreUnavailable]; the loop body has no handler, so the task ends
    with that exception after one sweep, with no log entry, no sleep and
    no second sweep, for every number of iterations it was given. *)
Theorem sweep_loop_ends_at_first_failed_sweep :
  forall fuel : nat,
    cleanup_sessions Demo.manager Demo.cfg (S fuel) Demo.outage =
      (Raise RedisStore.store_unavailable,
       World 1000 (RedisStore.with_store_up false RedisStore.empty) [] ∅
             [CallCleanupExpiredSessions]).
Proof.
  intros fuel.
  rewrite (cleanup_sessions_ends_on_failure Demo.manager Demo.cfg fuel
             Demo.outage RedisStore.store_unavailable
             (RedisStore.with_store_up false RedisStore.empty) eq_refl).
  reflexivity.
Qed.

(* ================================================================== *)
(** * Rate limiter                                                     *)
(* ================================================================== *)

Section RateLimitFacts.
Context (policy : bool) (action client : string) (n w : Z).
Hypothesis w_pos : 0 < w.

Lemma window_bounds (t i : Z) :
  RedisStore.window_index w t = i -> i * w <= t < (i + 1) * w.
Proof.
  unfold RedisStore.window_index. intros <-.
  pose proof (Z.div_mod t w ltac:(lia)) as Hdm.
  pose proof (Z.mod_pos_bound t w w_pos) as Hb. nia.
Qed.

Lemma check_in_window (i t : Z) (k : nat) (s : RedisStore.state) :
  RedisStore.store_up s = true ->
  RedisStore.window_index w t = i ->
  counted action client w i k s ->
  exists s',
    RedisStore.check policy t action client n w s
      = (Ok (PyBool (Z.of_nat (S k) <=? n)), s')
    /\ RedisStore.store_up s' = true
    /\ counted action client w i (S k) s'
    /\ forall key, key <> (action, client, i) ->
         RedisStore.counters s' !! key = RedisStore.counters s !! key.
Proof.
  intros Hup Hi Hk. pose proof (window_bounds t i Hi) as Hb.
  unfold RedisStore.check. rewrite Hup, Hi.
  unfold RedisStore.live_count.
  destruct k as [|k]; simpl in Hk.
  - rewrite Hk. eexists. split; [reflexivity|]. simpl.
    split; [exact Hup|]. split.
    + exists (t + w). rewrite lookup_insert_eq. split; [reflexivity | lia].
    + intros key Hne. apply lookup_insert_ne. congruence.
  - destruct Hk as (expires & Hc & Hexp). rewrite Hc.
    destruct (Z.ltb_spec t expires); [|lia].
    eexists. split.
    + replace (Z.of_nat (S (S k))) with (Z.of_nat (S k) + 1) by lia.
      reflexivity.
    + simpl. split; [exact Hup|]. split.
      * exists expires. rewrite lookup_insert_eq. split; [|exact Hexp].
        f_equal. f_equal. lia.
      * intros key Hne. apply lookup_insert_ne. congruence.
Qed.

Lemma run_checks_in_window (i : Z) (ts : list Z) :
  forall (k : nat) (s : RedisStore.state),
    RedisStore.store_up s = true ->
    Forall (fun t => RedisStore.window_index w t = i) ts ->
    counted action client w i k s ->
    exists rs s',
      RedisStore.run_checks policy action client n w ts s = (rs, s')
      /\ length rs = length ts
      /\ (forall m r, rs !! m = Some r ->
            r = Ok (PyBool (Z.of_nat (k + S m) <=? n)))
      /\ RedisStore.store_up s' = true
      /\ counted action client w i (k + length ts) s'
      /\ forall key, key <> (action, client, i) ->
           RedisStore.counters s' !! key = RedisStore.counters s !! key.
Proof.
  induction ts as [|t ts IH]; intros k s Hup Hts Hk.
  - exists [], s. simpl. repeat split; auto.
    + intros m r H. rewrite lookup_nil in H. discriminate.
    + rewrite Nat.add_0_r. exact Hk.
  - inversion_clear Hts as [|? ? Ht Hts'].
    destruct (check_in_window i t k s Hup Ht Hk)
      as (s1 & Hc & Hup1 & Hk1 & Hother1).
    destruct (IH (S k) s1 Hup1 Hts' Hk1)
      as (rs & s2 & Hrun & Hlen & Hrs & Hup2 & Hk2 & Hother2).
    exists (Ok (PyBool (Z.of_nat (S k) <=? n)) :: rs), s2.
    simpl. rewrite Hc, Hrun. split; [reflexivity|].
    split; [simpl; congruence|]. split.
    + intros [|m] r H; simpl in H.
      * injection H as <-. do 3 f_equal. lia.
      * apply Hrs in H. subst r. do 3 f_equal. lia.
    + split; [exact Hup2|]. split.
      * replace (k + S (length ts))%nat with (S k + length ts)%nat by lia.
        exact Hk2.
      * intros key Hne. rewrite Hother2, Hother1 by exact Hne. reflexivity.
Qed.
End RateLimitFacts.

(** C4: for every action, client, threshold [n] and window length [w]:
    of the checks a client makes within one window, the [m]-th leaves the
    window's counter at [m] and is allowed iff [m <= n], so the
    [(n+1)]-th is rejected; the first check in another window counts from
    one again, and is allowed whenever the first check of the old window
    was. *)
Theorem fixed_window_rate_limit :
  forall (policy : bool) (action client : string) (n w i : Z)
         (ts : list Z) (t' : Z) (s : RedisStore.state),
    0 < w ->
    RedisStore.store_up s = true ->
    Forall (fun t => RedisStore.window_index w t = i) ts ->
    RedisStore.window_index w t' <> i ->
    RedisStore.counters s !! (action, client, i) = None ->
    RedisStore.counters s !! (action, client, RedisStore.window_index w t')
      = None ->
    exists (rs : list (result pyval)) (s1 : RedisStore.state),
      RedisStore.run_checks policy action client n w ts s = (rs, s1)
      /\ length rs = length ts
      /\ (forall (m : nat) (r : result pyval),
             rs !! m = Some r -> r = Ok (PyBool (Z.of_nat (S m) <=? n)))
      /\ counted action client w i (length ts) s1
      /\ (0 <= n -> length ts = S (Z.to_nat n) ->
          rs !! Z.to_nat n = Some (Ok (PyBool false)))
      /\ fst (RedisStore.check policy t' action client n w s1)
         = Ok (PyBool (1 <=? n))
      /\ (rs !! 0%nat = Some (Ok (PyBool true)) ->
          fst (RedisStore.check policy t' action client n w s1)
          = Ok (PyBool true)).
Proof.
  intros policy action client n w i ts t' s Hw Hup Hts Hne Hfresh Hfresh'.
  destruct (run_checks_in_window policy action client n w Hw i ts 0%nat s
              Hup Hts Hfresh)
    as (rs & s1 & Hrun & Hlen & Hrs & Hup1 & Hk & Hother).
  assert (Hnext : fst (RedisStore.check policy t' action client n w s1)
                  = Ok (PyBool (1 <=? n))).
  { destruct (check_in_window policy action client n w Hw
                (RedisStore.window_index w t') t' 0%nat s1 Hup1 eq_refl)
      as (s2 & Hc & _).
    - simpl. rewrite Hother by congruence. exact Hfresh'.
    - rewrite Hc. reflexivity. }
  exists rs, s1. split; [exact Hrun|]. split; [exact Hlen|].
  split; [exact Hrs|]. split; [exact Hk|]. split; [|split].
  - intros Hn Hlast.
    destruct (lookup_lt_is_Some_2 rs (Z.to_nat n)) as [r Hr]; [lia|].
    rewrite Hr. f_equal. rewrite (Hrs _ _ Hr). do 2 f_equal.
    apply Z.leb_gt. lia.
  - exact Hnext.
  - intros Hfirst. rewrite Hnext. apply Hrs in Hfirst.
    injection Hfirst as Hfirst. change (Z.of_nat 1) with 1 in Hfirst.
    rewrite <- Hfirst. reflexivity.
Qed.

(** Witness of C4: threshold 2, window 60; three checks at 1000, 1005 and
    1010 (window 16), then one at 1080 (window 18). *)
Lemma fixed_window_rate_limit_witness :
  fst (RedisStore.run_checks false "login" "10.0.0.1" 2 60
         [1000; 1005; 1010] RedisStore.empty)
  = [Ok (PyBool true); Ok (PyBool true); Ok (PyBool false)]
  /\ fst (RedisStore.check false 1080 "login" "10.0.0.1" 2 60
            (snd (RedisStore.run_checks false "login" "10.0.0.1" 2 60
                    [1000; 1005; 1010] RedisStore.empty)))
     = Ok (PyBool true).
Proof.
  destruct (fixed_window_rate_limit false "login" "10.0.0.1" 2 60 16
              [1000; 1005; 1010] 1080 RedisStore.empty)
    as (rs & s1 & Hrun & Hlen & Hrs & _ & _ & Hnext & _).
  - lia.
  - reflexivity.
  - repeat (apply List.Forall_cons; [reflexivity|]). apply List.Forall_nil.
  - discriminate.
  - reflexivity.
  - reflexivity.
  - rewrite Hrun. simpl. split; [|exact Hnext].
    destruct rs as [|r0 [|r1 [|r2 [|r3 rs]]]]; try discriminate Hlen.
    rewrite (Hrs 0%nat r0 eq_refl), (Hrs 1%nat r1 eq_refl),
      (Hrs 2%nat r2 eq_refl).
    reflexivity.
Defined.

(* ================================================================== *)
(** * Task queue                                                       *)
(* ================================================================== *)

Lemma StronglySorted_append {A : Type} (R : A -> A -> Prop) (l1 l2 : list A) :
  StronglySorted R l1 -> StronglySorted R l2 ->
  (forall a b, In a l1 -> In b l2 -> R a b) ->
  StronglySorted R (l1 ++ l2).
Proof.
  intros H1 H2 Hcross. induction H1 as [|a l1 Hs IH Hall]; simpl.
  - exact H2.
  - constructor.
    + apply IH. intros x y Hx Hy. apply Hcross; [right; exact Hx | exact Hy].
    + apply List.Forall_app. split; [exact Hall|].
      apply List.Forall_forall. intros y Hy. apply Hcross; [left; reflexivity | exact Hy].
Qed.

Lemma StronglySorted_refine {A : Type} (R R' : A -> A -> Prop) (P : A -> Prop)
    (l : list A) :
  (forall a b, P a -> P b -> R a b -> R' a b) ->
  Forall P l -> StronglySorted R l -> StronglySorted R' l.
Proof.
  intros Himp HP Hs. induction Hs as [|a l Hs IH Hall]; constructor.
  - apply IH. inversion HP; assumption.
  - inversion HP as [|? ? Pa Pl]; subst.
    rewrite List.Forall_forall in *. intros y Hy.
    apply Himp; [exact Pa | apply Pl; exact Hy | apply Hall; exact Hy].
Qed.

Lemma fifo_weaken (p : TaskPriority) (b b' : nat) (q : list RedisStore.task) :
  (b <= b')%nat -> fifo p b q -> fifo p b' q.
Proof.
  intros Hb [Hall Hs]. split; [|exact Hs].
  eapply List.Forall_impl; [|exact Hall]. simpl. intros t [Hp Hlt].
  split; [exact Hp | lia].
Qed.

Lemma fifo_snoc (p : TaskPriority) (t : RedisStore.task)
    (q : list RedisStore.task) :
  RedisStore.task_priority t = p ->
  fifo p (RedisStore.task_seq t) q ->
  fifo p (S (RedisStore.task_seq t)) (q ++ [t]).
Proof.
  intros Hp [Hall Hs]. split.
  - apply List.Forall_app. split.
    + eapply List.Forall_impl; [|exact Hall]. simpl. intros x [Hx Hlt].
      split; [exact Hx | lia].
    + constructor; [|constructor]. split; [exact Hp | lia].
  - apply StronglySorted_append; [exact Hs | repeat constructor |].
    intros a b Ha [<-|[]]. rewrite List.Forall_forall in Hall.
    apply Hall in Ha. tauto.
Qed.

Lemma fifo_tail (p : TaskPriority) (b : nat) (t : RedisStore.task)
    (q : list RedisStore.task) :
  fifo p b (t :: q) -> fifo p b q.
Proof.
  intros [Hall Hs]. split.
  - inversion Hall; assumption.
  - inversion Hs; assumption.
Qed.

Lemma queue_ok_empty : queue_ok RedisStore.empty.
Proof.
  unfold queue_ok, fifo. simpl. repeat split; constructor.
Qed.

Lemma enqueue_accepted (now : Z) (ty : TaskType) (payload : pyval)
    (p : TaskPriority) (s : RedisStore.state) :
  RedisStore.store_up s = true ->
  exists t,
    RedisStore.enqueue now ty payload p s = (Ok t, RedisStore.push t s)
    /\ RedisStore.task_priority t = p
    /\ RedisStore.task_seq t = RedisStore.next_seq s
    /\ RedisStore.store_up (RedisStore.push t s) = true.
Proof.
  intros Hup. unfold RedisStore.enqueue. rewrite Hup.
  eexists. split; [reflexivity|]. simpl. auto.
Qed.

Lemma push_ok (t : RedisStore.task) (s : RedisStore.state) :
  RedisStore.task_seq t = RedisStore.next_seq s ->
  queue_ok s -> queue_ok (RedisStore.push t s).
Proof.
  intros Hseq (Hh & Hm & Hl). unfold queue_ok. simpl.
  rewrite <- Hseq in *.
  destruct (RedisStore.task_priority t) eqn:Hp;
    (split; [|split]);
    first [ apply fifo_snoc; assumption
          | eapply fifo_weaken; [|eassumption]; lia ].
Qed.

Lemma dequeue_ok (s s' : RedisStore.state) (t : RedisStore.task) :
  RedisStore.dequeue s = Some (t, s') -> queue_ok s -> queue_ok s'.
Proof.
  unfold RedisStore.dequeue, queue_ok. intros H (Hh & Hm & Hl).
  destruct (RedisStore.queue_high s) as [|th qh] eqn:Eh.
  - destruct (RedisStore.queue_medium s) as [|tm qm] eqn:Em.
    + destruct (RedisStore.queue_low s) as [|tl ql] eqn:El;
        [discriminate|].
      injection H as <- <-. simpl.
      split; [|split];
        [split; constructor | split; constructor
         | apply (fifo_tail _ _ _ _ Hl)].
    + injection H as <- <-. simpl.
      split; [|split];
        [split; constructor | apply (fifo_tail _ _ _ _ Hm) | exact Hl].
  - injection H as <- <-. simpl.
    split; [|split]; [apply (fifo_tail _ _ _ _ Hh) | exact Hm | exact Hl].
Qed.

Lemma retrieve_firstn (fuel : nat) :
  forall s : RedisStore.state,
    RedisStore.retrieve fuel s =
      firstn fuel (RedisStore.queue_high s ++ RedisStore.queue_medium s
                     ++ RedisStore.queue_low s).
Proof.
  induction fuel as [|fuel IH]; intros s; [reflexivity|].
  simpl. unfold RedisStore.dequeue.
  destruct (RedisStore.queue_high s) as [|th qh].
  - destruct (RedisStore.queue_medium s) as [|tm qm].
    + destruct (RedisStore.queue_low s) as [|tl ql]; [reflexivity|].
      simpl. rewrite IH. reflexivity.
    + simpl. rewrite IH. reflexivity.
  - simpl. rewrite IH. reflexivity.
Qed.

(** Retrieval hands out everything that is queued: the high level, then
    the medium one, then the low one. *)
Lemma retrieve_all_levels (s : RedisStore.state) :
  RedisStore.retrieve_all s =
    RedisStore.queue_high s ++ RedisStore.queue_medium s
      ++ RedisStore.queue_low s.
Proof.
  unfold RedisStore.retrieve_all, RedisStore.pending.
  rewrite retrieve_firstn. apply firstn_all2.
  rewrite !length_app. lia.
Qed.

Lemma fifo_before (p : TaskPriority) (b : nat) (q : list RedisStore.task) :
  fifo p b q -> StronglySorted RedisStore.before q.
Proof.
  intros [Hall Hs].
  eapply (StronglySorted_refine _ _
            (fun t => RedisStore.task_priority t = p
                      /\ (RedisStore.task_seq t < b)%nat));
    [|exact Hall|exact Hs].
  intros x y [Hx _] [Hy _] Hlt. right. split; [congruence | exact Hlt].
Qed.

Lemma fifo_ranks (p p' : TaskPriority) (b : nat)
    (q q' : list RedisStore.task) (x y : RedisStore.task) :
  (RedisStore.rank p < RedisStore.rank p')%nat ->
  fifo p b q -> fifo p' b q' -> In x q -> In y q' ->
  RedisStore.before x y.
Proof.
  intros Hr [Hq _] [Hq' _] Hx Hy. rewrite List.Forall_forall in Hq, Hq'.
  destruct (Hq x Hx) as [Ex _]. destruct (Hq' y Hy) as [Ey _].
  left. rewrite Ex, Ey. exact Hr.
Qed.

Lemma queue_ok_sorted (s : RedisStore.state) :
  queue_ok s -> StronglySorted RedisStore.before (RedisStore.retrieve_all s).
Proof.
  intros (Hh & Hm & Hl). rewrite retrieve_all_levels.
  apply StronglySorted_append; [eapply fifo_before; exact Hh | |].
  - apply StronglySorted_append;
      [eapply fifo_before; exact Hm | eapply fifo_before; exact Hl |].
    intros x y Hx Hy.
    apply (fifo_ranks MEDIUM LOW _ _ _ x y ltac:(simpl; lia) Hm Hl Hx Hy).
  - intros x y Hx Hy. apply List.in_app_or in Hy as [Hy|Hy].
    + apply (fifo_ranks HIGH MEDIUM _ _ _ x y ltac:(simpl; lia) Hh Hm Hx Hy).
    + apply (fifo_ranks HIGH LOW _ _ _ x y ltac:(simpl; lia) Hh Hl Hx Hy).
Qed.

Lemma retrieve_all_push (t : RedisStore.task) (s : RedisStore.state) :
  Permutation (RedisStore.retrieve_all (RedisStore.push t s))
              (RedisStore.retrieve_all s ++ [t]).
Proof.
  rewrite !retrieve_all_levels. simpl.
  destruct (RedisStore.task_priority t).
  - rewrite <- !app_assoc. apply Permutation_app_head.
    rewrite (app_assoc (RedisStore.queue_medium s)).
    apply (Permutation_app_comm [t]).
  - rewrite <- !app_assoc. apply Permutation_app_head.
    apply Permutation_app_head. apply Permutation_app_comm.
  - rewrite <- !app_assoc. reflexivity.
Qed.

Lemma enqueue_all_accepted (now : Z) (ps : list TaskPriority) :
  forall s : RedisStore.state,
    RedisStore.store_up s = true -> queue_ok s ->
    exists ts s',
      RedisStore.enqueue_all now ps s = (ts, s')
      /\ map RedisStore.task_priority ts = ps
      /\ RedisStore.store_up s' = true
      /\ queue_ok s'
      /\ Permutation (RedisStore.retrieve_all s')
                     (RedisStore.retrieve_all s ++ ts).
Proof.
  induction ps as [|p ps IH]; intros s Hup Hok.
  - exists [], s. simpl. rewrite app_nil_r.
    split; [reflexivity|]. split; [reflexivity|]. split; [exact Hup|].
    split; [exact Hok | reflexivity].
  - destruct (enqueue_accepted now VIDEO_PROCESSING PyNone p s Hup)
      as (t & Henq & Hp & Hseq & Hup').
    destruct (IH (RedisStore.push t s) Hup' (push_ok t s Hseq Hok))
      as (ts & s' & Hrun & Hps & Hup'' & Hok' & Hperm).
    exists (t :: ts), s'. simpl. rewrite Henq, Hrun.
    split; [reflexivity|]. split; [simpl; congruence|].
    split; [exact Hup''|]. split; [exact Hok'|].
    rewrite Hperm, retrieve_all_push, <- app_assoc. reflexivity.
Qed.

(** C5: for every batch of tasks enqueued while the store accepts them,
    into any queue the operations can produce, nothing is lost and the
    retrieval order is by priority rank first and by sequence number
    within a priority; enqueuing [low, high, medium] and then [high] into
    the empty queue is retrieved as [high, high, medium, low], the two
    high tasks in the order they were enqueued. *)
Theorem task_queue_priority_then_fifo :
  (forall (now : Z) (ps : list TaskPriority) (s : RedisStore.state),
      RedisStore.store_up s = true ->
      queue_ok s ->
      exists ts s',
        RedisStore.enqueue_all now ps s = (ts, s')
        /\ map RedisStore.task_priority ts = ps
        /\ queue_ok s'
        /\ Permutation (RedisStore.retrieve_all s')
                       (RedisStore.retrieve_all s ++ ts)
        /\ StronglySorted RedisStore.before (RedisStore.retrieve_all s'))
  /\ queue_ok RedisStore.empty
  /\ map (fun t => (RedisStore.task_priority t, RedisStore.task_seq t))
         (RedisStore.retrieve_all
            (snd (RedisStore.enqueue_all 0 [HIGH]
                    (snd (RedisStore.enqueue_all 0 [LOW; HIGH; MEDIUM]
                            RedisStore.empty)))))
     = [(HIGH, 1%nat); (HIGH, 3%nat); (MEDIUM, 2%nat); (LOW, 0%nat)].
Proof.
  split; [|split; [exact queue_ok_empty | reflexivity]].
  intros now ps s Hup Hok.
  destruct (enqueue_all_accepted now ps s Hup Hok)
    as (ts & s' & Hrun & Hps & _ & Hok' & Hperm).
  exists ts, s'. split; [exact Hrun|]. split; [exact Hps|].
  split; [exact Hok'|]. split; [exact Hperm|].
  apply queue_ok_sorted. exact Hok'.
Qed.

(** Witness of C5: the two batches of the example, one after the other,
    starting from the empty queue. *)
Lemma task_queue_priority_then_fifo_witness :
  StronglySorted RedisStore.before
    (RedisStore.retrieve_all
       (snd (RedisStore.enqueue_all 0 [HIGH]
               (snd (RedisStore.enqueue_all 0 [LOW; HIGH; MEDIUM]
                       RedisStore.empty))))).
Proof.
  destruct task_queue_priority_then_fifo as (Hgen & Hempty & _).
  destruct (Hgen 0 [LOW; HIGH; MEDIUM] RedisStore.empty eq_refl Hempty)
    as (ts1 & s1 & Hrun1 & _ & Hok1 & _ & _).
  rewrite Hrun1. cbn [snd].
  assert (Hup1 : RedisStore.store_up s1 = true).
  { injection Hrun1 as _ <-. reflexivity. }
  destruct (Hgen 0 [HIGH] s1 Hup1 Hok1)
    as (ts2 & s2 & Hrun2 & _ & _ & _ & Hsorted).
  rewrite Hrun2. exact Hsorted.
Defined.

(* ================================================================== *)
(** * Cache invalidation                                               *)
(* ================================================================== *)

Section CacheFacts.
Context (st : RedisStore.settings).

Lemma get_cache_result (now : Z) (key : string) (s : RedisStore.state) :
  RedisStore.get_cache now key s =
    (Ok (if RedisStore.store_up s then
           match RedisStore.cache s !! key with
           | Some (v, expires) => if now <? expires then v else PyNone
           | None => PyNone
           end
         else PyNone), s).
Proof.
  unfold RedisStore.get_cache. destruct (RedisStore.store_up s); [|reflexivity].
  destruct (RedisStore.cache s !! key) as [[v e]|]; [|reflexivity].
  destruct (now <? e); reflexivity.
Qed.

Lemma invalidate_cache_returned (now : Z) (key : string)
    (s s' : RedisStore.state) (v : pyval) :
  RedisStore.invalidate_cache now key s = (Ok v, s') ->
  RedisStore.cache s' !! key = None.
Proof.
  unfold RedisStore.invalidate_cache.
  destruct (RedisStore.store_up s); [|discriminate].
  intros [= _ <-]. simpl. apply lookup_delete_eq.
Qed.

(** An entry found under a key after some cache traffic was there before
    it, or was written by it. *)
Lemma cache_entry_origin (key : string) (ops : list cache_op) :
  forall (s : RedisStore.state) (v : pyval) (expires : Z),
    RedisStore.cache (run_cache_ops st ops s) !! key = Some (v, expires) ->
    RedisStore.cache s !! key = Some (v, expires)
    \/ exists t, In (CacheSet t key v) ops.
Proof.
  induction ops as [|o ops IH]; intros s v expires H; [left; exact H|].
  simpl in H. apply IH in H as [H|[t H]]; [|right; exists t; right; exact H].
  destruct o as [t k x|t k|up]; simpl in H.
  - unfold RedisStore.set_cache in H.
    destruct (RedisStore.store_up s); simpl in H; [|left; exact H].
    destruct (decide (k = key)) as [->|Hne].
    + rewrite lookup_insert_eq in H. injection H as <- _.
      right. exists t. left. reflexivity.
    + rewrite lookup_insert_ne in H by exact Hne. left. exact H.
  - unfold RedisStore.invalidate_cache in H.
    destruct (RedisStore.store_up s); simpl in H; [|left; exact H].
    destruct (decide (k = key)) as [->|Hne].
    + rewrite lookup_delete_eq in H. discriminate.
    + rewrite lookup_delete_ne in H by exact Hne. left. exact H.
  - left. exact H.
Qed.

(** Once [invalidate] has returned, a [get] of the key by any caller,
    after any further cache traffic, answers absent or a value written
    since. *)
Lemma no_stale_read_after_invalidate :
  forall (now : Z) (key : string) (s s' : RedisStore.state) (r : pyval)
         (ops : list cache_op) (now' : Z),
    RedisStore.invalidate_cache now key s = (Ok r, s') ->
    exists v,
      fst (RedisStore.get_cache now' key (run_cache_ops st ops s')) = Ok v
      /\ (v = PyNone \/ exists t, In (CacheSet t key v) ops).
Proof.
  intros now key s s' r ops now' Hinv.
  apply invalidate_cache_returned in Hinv.
  rewrite get_cache_result. cbn [fst]. eexists. split; [reflexivity|].
  destruct (RedisStore.store_up (run_cache_ops st ops s'));
    [|left; reflexivity].
  destruct (RedisStore.cache (run_cache_ops st ops s') !! key)
    as [[v e]|] eqn:E; [|left; reflexivity].
  destruct (now' <? e); [|left; reflexivity].
  apply cache_entry_origin in E as [E|E]; [congruence | right; exact E].
Qed.
End CacheFacts.

Section SessionsLeaveCache.
Context {X : Type} (st : RedisStore.settings) (cfg : SessionConfig).

(** Session validation on the reference manager does not touch the
    cache. *)
Lemma get_current_user_keeps_cache (request : Request) (return_none : bool)
    (w : world RedisStore.state X) :
  RedisStore.cache
    (redis (snd (get_current_user (RedisStore.manager st) cfg request
                   return_none w)))
  = RedisStore.cache (redis w).
Proof.
  unfold get_current_user. run.
  destruct (String.eqb _ ""); [destruct return_none; reflexivity|].
  unfold RedisStore.validate_session, RedisStore.refresh_session.
  destruct (RedisStore.store_up (redis w)) eqn:Hup; simpl;
    [|destruct return_none; reflexivity].
  destruct (RedisStore.live_session _ _ _) as [r|] eqn:Hlive; simpl;
    [|destruct return_none; reflexivity].
  destruct (RedisStore.well_formed _) eqn:Hwf; simpl;
    [|destruct return_none; reflexivity].
  destruct (RedisStore.sess_data r) as [| | | | |d] eqn:Hd;
    try discriminate Hwf; simpl.
  simpl in Hwf. destruct d as [|kv d]; [discriminate Hwf|]. simpl.
  rewrite Hwf. simpl.
  destruct (as_number _); simpl; [|destruct return_none; reflexivity].
  destruct (_ <? _); simpl; [|reflexivity].
  rewrite Hup, Hlive. simpl. reflexivity.
Qed.
End SessionsLeaveCache.

Section SendMessageFacts.
Context {X : Type} (st : RedisStore.settings) (io : External X)
        (cfg : SessionConfig).

(** A [send_message] that returns has persisted the two chat rows and then
    invalidated the chat-history key of the user, and the key is gone. *)
Lemma send_message_invalidates_chat_history :
  forall (request : Request) (message : string) (videos : list UploadFile)
         (w w' : world RedisStore.state X) (resp : Response),
    send_message (RedisStore.manager st) io cfg request message videos w
      = (Ok resp, w') ->
    exists (user_id : pyval) (uid : N) (response_text : pyval)
           (earlier : list event),
      uuid_UUID io user_id = Ok uid
      /\ log w' = earlier
                  ++ [CallInsertChatMessage uid (PyStr message) "user";
                      CallInsertChatMessage uid response_text "bot";
                      CallInvalidateCache (chat_history_key io user_id)]
      /\ RedisStore.cache (redis w') !! chat_history_key io user_id = None.
Proof.
  intros request message videos w w' resp H.
  unfold send_message in H. unfold bind at 1 in H.
  destruct (get_current_user (RedisStore.manager st) cfg request false w)
    as [[user|e] w1]; [|discriminate H].
  unfold try_except in H.
  match type of H with
  | match ?body w1 with _ => _ end = _ =>
      destruct (body w1) as [[r|e] wb] eqn:Eb
  end.
  2:{ revert H. run. discriminate. }
  injection H as -> ->.
  unfold bind at 1 in Eb.
  destruct (for_each (process_video (RedisStore.manager st) io user) videos
              w1) as [[[]|e] w2]; [|discriminate Eb].
  revert Eb. unfold getitem. run.
  destruct (chatbot_send_message io message (ext w2))
    as [[response_text|e] x3]; simpl; [|discriminate].
  destruct user as [| | | | |d]; simpl; try discriminate.
  destruct (dict_get "id" d) as [user_id|]; simpl; [|discriminate].
  destruct (uuid_UUID io user_id) as [uid|e] eqn:Eu; simpl; [|discriminate].
  destruct (insert_chat_message io uid (PyStr message) "user" x3)
    as [[v1|e] x4]; simpl; [|discriminate].
  destruct (insert_chat_message io uid response_text "bot" x4)
    as [[v2|e] x5]; simpl; [|discriminate].
  unfold RedisStore.invalidate_cache.
  destruct (RedisStore.store_up (redis w2)); simpl; [|discriminate].
  intros [= <- <-]. simpl.
  exists user_id, uid, response_text, (log w2).
  split; [exact Eu|]. split.
  - rewrite <- !app_assoc. reflexivity.
  - apply lookup_delete_eq.
Qed.

(** A chat-history read that finds nothing under the user's key answers
    with what the datastore holds. *)
Lemma chat_history_read_after_invalidation :
  forall (request : Request) (w w1 : world RedisStore.state X)
         (d : list (string * pyval)) (user_id history : pyval) (uid : N)
         (x3 : X),
    RedisStore.cache (redis w) !! chat_history_key io user_id = None ->
    get_current_user (RedisStore.manager st) cfg request false w
      = (Ok (PyDict d), w1) ->
    dict_get "id" d = Some user_id ->
    uuid_UUID io user_id = Ok uid ->
    get_chat_history io uid (ext w1) = (Ok history, x3) ->
    fst (get_chat_history_endpoint (RedisStore.manager st) io cfg request w)
    = Ok (JSONResponse 200 (PyDict [("history", history)])).
Proof.
  intros request w w1 d user_id history uid x3 Hgone Huser Hid Hu Hq.
  assert (Hgone1 : RedisStore.cache (redis w1) !! chat_history_key io user_id
                   = None).
  { pose proof (get_current_user_keeps_cache st cfg request false w) as K.
    rewrite Huser in K. simpl in K. rewrite K. exact Hgone. }
  assert (Hget : get_cache (RedisStore.manager st) (clock w1)
                   (chat_history_key io user_id) (redis w1)
                 = (Ok PyNone, redis w1)).
  { simpl. rewrite get_cache_result, Hgone1.
    destruct (RedisStore.store_up (redis w1)); reflexivity. }
  pose proof (history_endpoint_falsy_is_a_miss (RedisStore.manager st) io cfg
                (chat_history_key io)
                "Returning cached chat history for user "
                CallGetChatHistory (get_chat_history io)
                request w w1 d user_id PyNone (redis w1) Huser Hid Hget)
    as Hmiss.
  simpl in Hmiss.
  destruct (RedisStore.set_cache st (clock w1) (chat_history_key io user_id)
              history (redis w1)) as [[stored|e] r3] eqn:Es.
  - unfold get_chat_history_endpoint.
    rewrite (Hmiss uid history stored x3 r3 Hu Hq Es). reflexivity.
  - unfold RedisStore.set_cache in Es.
    destruct (RedisStore.store_up (redis w1)); discriminate Es.
Qed.
End SendMessageFacts.

(** C3: on the reference manager, once [invalidate_cache] has returned, a
    [get_cache] of the key by any caller, after any further cache
    traffic, answers absent or a value written since, never the value
    that was there before; and a [send_message] that returns has stored
    the two chat rows and then invalidated the user's chat-history key,
    so that the key is gone and a chat-history read by that user answers
    with what the datastore holds. *)
Theorem invalidated_key_is_not_served :
  (forall (st : RedisStore.settings) (now : Z) (key : string)
          (s s' : RedisStore.state) (r : pyval) (ops : list cache_op)
          (now' : Z),
      RedisStore.invalidate_cache now key s = (Ok r, s') ->
      exists v,
        fst (RedisStore.get_cache now' key (run_cache_ops st ops s')) = Ok v
        /\ (v = PyNone \/ exists t, In (CacheSet t key v) ops))
  /\ (forall (X : Type) (st : RedisStore.settings) (io : External X)
             (cfg : SessionConfig) (request : Request) (message : string)
             (videos : list UploadFile) (w w' : world RedisStore.state X)
             (resp : Response),
         send_message (RedisStore.manager st) io cfg request message videos w
           = (Ok resp, w') ->
         exists (user_id : pyval) (uid : N) (response_text : pyval)
                (earlier : list event),
           uuid_UUID io user_id = Ok uid
           /\ log w' = earlier
                       ++ [CallInsertChatMessage uid (PyStr message) "user";
                           CallInsertChatMessage uid response_text "bot";
                           CallInvalidateCache
                             (chat_history_key io user_id)]
           /\ RedisStore.cache (redis w') !! chat_history_key io user_id
              = None
           /\ forall (request' : Request) (dt : Z)
                     (w1 : world RedisStore.state X)
                     (d : list (string * pyval)) (history : pyval) (x3 : X),
                get_current_user (RedisStore.manager st) cfg request' false
                                 (tick dt w') = (Ok (PyDict d), w1) ->
                dict_get "id" d = Some user_id ->
                get_chat_history io uid (ext w1) = (Ok history, x3) ->
                fst (get_chat_history_endpoint (RedisStore.manager st) io
                       cfg request' (tick dt w'))
                = Ok (JSONResponse 200 (PyDict [("history", history)]))).
Proof.
  split.
  - intros st now key s s' r ops now' H.
    eapply no_stale_read_after_invalidate; exact H.
  - intros X st io cfg request message videos w w' resp H.
    destruct (send_message_invalidates_chat_history st io cfg request message
                videos w w' resp H)
      as (user_id & uid & response_text & earlier & Hu & Hlog & Hgone).
    exists user_id, uid, response_text, earlier.
    split; [exact Hu|]. split; [exact Hlog|]. split; [exact Hgone|].
    intros request' dt w1 d history x3 Huser Hid Hq.
    eapply chat_history_read_after_invalidation; eauto.
Qed.

(** Witness of C3: user "u1" has the stale list [["old"]] cached;
    [send_message] stores the message and the reply and invalidates the
    key, and the chat-history read that follows answers with the three
    rows of the datastore. *)
Lemma invalidated_key_is_not_served_witness :
  fst (RedisStore.get_cache 1100 "chat_history:u1"
         (redis (Demo.with_cached (PyList [PyStr "old"]))))
  = Ok (PyList [PyStr "old"])
  /\ fst (get_chat_history_endpoint Demo.manager Demo.io Demo.cfg
            (Demo.request "s1")
            (tick 5
               (snd (send_message Demo.manager Demo.io Demo.cfg
                       (Demo.request "s1") "hey" []
                       (Demo.with_cached (PyList [PyStr "old"]))))))
     = Ok (JSONResponse 200
             (PyDict [("history",
                       PyList [PyStr "hi"; PyStr "hey"; PyStr "hello"])])).
Proof.
  split; [reflexivity|].
  destruct invalidated_key_is_not_served as [_ Hsend].
  set (w0 := Demo.with_cached (PyList [PyStr "old"])).
  set (sent := send_message Demo.manager Demo.io Demo.cfg
                 (Demo.request "s1") "hey" [] w0).
  assert (Hrun : sent
                 = (Ok (JSONResponse 200
                          (PyDict [("response", PyStr "hello")])),
                    snd sent)).
  { vm_compute. reflexivity. }
  assert (Hlog' : log (snd sent)
                  = [CallValidateSession "s1"]
                      ++ [CallInsertChatMessage 2 (PyStr "hey") "user";
                          CallInsertChatMessage 2 (PyStr "hello") "bot";
                          CallInvalidateCache "chat_history:u1"]).
  { vm_compute. reflexivity. }
  destruct (Hsend _ Demo.settings Demo.io Demo.cfg (Demo.request "s1")
              "hey" [] w0 (snd sent) _ Hrun)
    as (user_id & uid & response_text & earlier & Hu & Hlog & _ & Hread).
  assert (Hid : user_id = PyStr "u1").
  { rewrite Hlog' in Hlog.
    apply app_inj_2 in Hlog as [_ Hlog]; [|reflexivity].
    assert (Hkey : "chat_history:u1" = chat_history_key Demo.io user_id)
      by congruence.
    unfold chat_history_key in Hkey.
    destruct user_id; cbn in Hkey;
      repeat (injection Hkey as Hkey);
      first [discriminate Hkey | rewrite Hkey; reflexivity]. }
  subst user_id. injection Hu as <-.
  set (validated := get_current_user Demo.manager Demo.cfg
                      (Demo.request "s1") false (tick 5 (snd sent))).
  assert (Huser : validated = (Ok (PyDict Demo.claims), snd validated)).
  { vm_compute. reflexivity. }
  assert (Hquery : get_chat_history Demo.io 2 (ext (snd validated))
                   = (Ok (PyList [PyStr "hi"; PyStr "hey"; PyStr "hello"]),
                      ext (snd validated))).
  { vm_compute. reflexivity. }
  exact (Hread (Demo.request "s1") 5 (snd validated) Demo.claims _ _
               Huser eq_refl Hquery).
Defined.

(* ================================================================== *)
(** * Further properties of session validation                         *)
(* ================================================================== *)

Section ValidationShape.
Context {R X : Type}.
Context (mgr : RedisManager R) (cfg : SessionConfig).

(** The outcomes of [get_current_user], by cases on what the store
    answers. *)
Lemma get_current_user_shape :
  forall (request : Request) (return_none : bool) (w : world R X),
    match fst (get_current_user mgr cfg request return_none w) with
    | Ok v =>
        (return_none = true /\ v = PyNone)
        \/ (exists d, v = PyDict d /\ dict_mem "id" d = true)
    | Raise e =>
        return_none = false
        /\ e = HTTPException 401 "Authentication error"
    end.
Proof.
  intros request return_none w. unfold get_current_user. run.
  destruct (String.eqb _ ""); simpl.
  { destruct return_none; simpl; auto. }
  destruct (validate_session mgr (clock w) _ (redis w))
    as [[[is_valid session_data]|e] r1]; simpl.
  2:{ destruct return_none; simpl; auto. }
  destruct (truthy is_valid); simpl.
  2:{ destruct return_none; simpl; auto. }
  destruct (truthy session_data); simpl.
  2:{ destruct return_none; simpl; auto. }
  destruct session_data as [| | | | |d]; simpl;
    try (destruct return_none; simpl; auto; fail).
  destruct (dict_mem "id" d) eqn:Hid; simpl.
  2:{ destruct return_none; simpl; auto. }
  destruct (as_number _); simpl.
  2:{ destruct return_none; simpl; auto. }
  destruct (_ <? _); simpl.
  - destruct (refresh_session mgr (clock w) _ r1) as [[v|e] r2]; simpl.
    + right. exists d. auto.
    + destruct return_none; simpl; auto.
  - right. exists d. auto.
Qed.

(** X1: whatever the store answers, [get_current_user] hands back either
    [None] (only under [return_none]) or a dict that has the ['id']
    field, and the only exception that leaves it is
    [HTTPException(401, "Authentication error")], never under
    [return_none]: the three specific 401 details raised inside the
    [try] are replaced by the handler's own. *)
Theorem get_current_user_outcomes :
  forall (request : Request) (return_none : bool) (w : world R X),
    match fst (get_current_user mgr cfg request return_none w) with
    | Ok v =>
        (return_none = true /\ v = PyNone)
        \/ (exists d, v = PyDict d /\ dict_mem "id" d = true)
    | Raise e =>
        return_none = false
        /\ e = HTTPException 401 "Authentication error"
    end.
Proof.
  intros request return_none w.
  pose proof (get_current_user_shape request return_none w) as H.
  destruct (fst (get_current_user mgr cfg request return_none w));
    exact H.
Qed.

(** Validation only appends to the log, and nothing it appends is a
    write to the queue, the datastore, the cache or a session record. *)
Lemma get_current_user_log :
  forall (request : Request) (return_none : bool) (w : world R X),
    exists l,
      log (snd (get_current_user mgr cfg request return_none w))
      = log w ++ l
      /\ Forall (fun e => writes e = false) l.
Proof.
  intros request return_none w. unfold get_current_user. run.
  destruct (String.eqb _ ""); simpl.
  { destruct return_none; simpl;
      [exists [] | eexists [_]]; simpl; rewrite ?app_nil_r;
      split; try reflexivity; repeat constructor. }
  destruct (validate_session mgr (clock w) _ (redis w))
    as [[[is_valid session_data]|e] r1]; simpl.
  2:{ destruct return_none; simpl; rewrite <- ?app_assoc; simpl;
      eexists; (split; [reflexivity|]); repeat constructor. }
  destruct (truthy is_valid); simpl.
  2:{ destruct return_none; simpl; rewrite <- ?app_assoc; simpl;
      eexists; (split; [reflexivity|]); repeat constructor. }
  destruct (truthy session_data); simpl.
  2:{ destruct return_none; simpl; rewrite <- ?app_assoc; simpl;
      eexists; (split; [reflexivity|]); repeat constructor. }
  destruct session_data as [| | | | |d]; simpl;
    try (destruct return_none; simpl; rewrite <- ?app_assoc; simpl;
         eexists; (split; [reflexivity|]); repeat constructor; fail).
  destruct (dict_mem "id" d); simpl.
  2:{ destruct return_none; simpl; rewrite <- ?app_assoc; simpl;
      eexists; (split; [reflexivity|]); repeat constructor. }
  destruct (as_number _); simpl.
  2:{ destruct return_none; simpl; rewrite <- ?app_assoc; simpl;
      eexists; (split; [reflexivity|]); repeat constructor. }
  destruct (_ <? _); simpl.
  - destruct (refresh_session mgr (clock w) _ r1) as [[v|e] r2]; simpl.
    + rewrite <- ?app_assoc; simpl.
      eexists; (split; [reflexivity|]); repeat constructor.
    + destruct return_none; simpl; rewrite <- ?app_assoc; simpl;
        eexists; (split; [reflexivity|]); repeat constructor.
  - eexists; (split; [reflexivity|]); repeat constructor.
Qed.

(** X2: a session that validates but whose sliding refresh raises is
    reported invalid: past the threshold, an exception from
    [refresh_session] is caught by the handler, logged, and turned into
    [None] or the 401. *)
Theorem failed_refresh_invalidates_valid_session :
  forall (request : Request) (return_none : bool) (w : world R X)
         (sid : string) (is_valid : pyval) (d : list (string * pyval))
         (t : Z) (r1 r2 : R) (e : exn),
    cookie_session_id request = Some sid ->
    sid <> "" ->
    validate_session mgr (clock w) sid (redis w)
      = (Ok (is_valid, PyDict d), r1) ->
    truthy is_valid = true ->
    dict_mem "id" d = true ->
    as_number (default (PyNum 0) (dict_get "last_refresh" d)) = Some t ->
    SESSION_REFRESH_THRESHOLD cfg < clock w - t ->
    refresh_session mgr (clock w) sid r1 = (Raise e, r2) ->
    fst (get_current_user mgr cfg request return_none w)
    = (if return_none then Ok PyNone
       else Raise (HTTPException 401 "Authentication error"))
    /\ new_events w (snd (get_current_user mgr cfg request return_none w))
       = [CallValidateSession sid; CallRefreshSession sid;
          LogError "Error in get_current_user" (Some e)].
Proof.
  intros request return_none w sid is_valid d t r1 r2 e
         Hc Hne Hv Hiv Hid Ht Hpast Hr.
  rewrite (get_current_user_valid mgr cfg request return_none w sid
             is_valid d t r1 Hc Hne Hv Hiv Hid Ht).
  destruct (Z.ltb_spec (SESSION_REFRESH_THRESHOLD cfg) (clock w - t));
    [|lia].
  rewrite Hr. simpl. split; [reflexivity|].
  apply new_events_app. reflexivity.
Qed.

(** X3: a valid session whose [last_refresh] is not a number is reported
    invalid: the subtraction raises [TypeError] inside the [try], the
    refresh is never attempted. *)
Theorem non_numeric_last_refresh_is_rejected :
  forall (request : Request) (return_none : bool) (w : world R X)
         (sid : string) (is_valid : pyval) (d : list (string * pyval))
         (r1 : R),
    cookie_session_id request = Some sid ->
    sid <> "" ->
    validate_session mgr (clock w) sid (redis w)
      = (Ok (is_valid, PyDict d), r1) ->
    truthy is_valid = true ->
    dict_mem "id" d = true ->
    as_number (default (PyNum 0) (dict_get "last_refresh" d)) = None ->
    fst (get_current_user mgr cfg request return_none w)
    = (if return_none then Ok PyNone
       else Raise (HTTPException 401 "Authentication error"))
    /\ refresh_calls
         (new_events w
            (snd (get_current_user mgr cfg request return_none w))) = [].
Proof.
  intros request return_none w sid is_valid d r1 Hc Hne Hv Hiv Hid Ht.
  unfold get_current_user. rewrite Hc. simpl. run.
  apply String.eqb_neq in Hne. rewrite Hne, Hv. simpl. rewrite Hiv. simpl.
  assert (Hd : match d with [] => false | _ :: _ => true end = true).
  { destruct d; [discriminate Hid | reflexivity]. }
  rewrite Hd, Hid. simpl. rewrite Ht.
  destruct return_none; simpl; (split; [reflexivity|]);
    (erewrite new_events_app;
     [|simpl; rewrite <- !app_assoc; reflexivity]); reflexivity.
Qed.
End ValidationShape.

(** Witness of X2: session "s1" is validated at 1301, past the threshold,
    on a manager whose [refresh_session] raises. *)
Lemma failed_refresh_invalidates_valid_session_witness :
  fst (get_current_user Lab.broken_refresh Demo.cfg (Demo.request "s1")
         true (Demo.logged_in 1301)) = Ok PyNone
  /\ fst (get_current_user Lab.broken_refresh Demo.cfg (Demo.request "s1")
            false (Demo.logged_in 1301))
     = Raise (HTTPException 401 "Authentication error").
Proof.
  split.
  - apply (failed_refresh_invalidates_valid_session Lab.broken_refresh
             Demo.cfg (Demo.request "s1") true (Demo.logged_in 1301) "s1"
             (PyBool true) Demo.claims 1000
             (redis (Demo.logged_in 1301)) (redis (Demo.logged_in 1301))
             RedisStore.store_unavailable);
      first [reflexivity | discriminate].
  - apply (failed_refresh_invalidates_valid_session Lab.broken_refresh
             Demo.cfg (Demo.request "s1") false (Demo.logged_in 1301) "s1"
             (PyBool true) Demo.claims 1000
             (redis (Demo.logged_in 1301)) (redis (Demo.logged_in 1301))
             RedisStore.store_unavailable);
      first [reflexivity | discriminate].
Defined.

(** Witness of X3: the stored record of "s1" carries
    [last_refresh = "yesterday"]. *)
Lemma non_numeric_last_refresh_is_rejected_witness :
  fst (get_current_user Demo.manager Demo.cfg (Demo.request "s1") false
         Lab.odd_session)
  = Raise (HTTPException 401 "Authentication error").
Proof.
  apply (non_numeric_last_refresh_is_rejected Demo.manager Demo.cfg
           (Demo.request "s1") false Lab.odd_session "s1" (PyBool true)
           [("id", PyStr "u1"); ("last_refresh", PyStr "yesterday")]
           (redis Lab.odd_session));
    first [reflexivity | discriminate].
Defined.

(* ================================================================== *)
(** * Further properties of login                                      *)
(* ================================================================== *)

Section LoginEdges.
Context {R X : Type}.
Context (mgr : RedisManager R) (io : External X) (cfg : SessionConfig).

(** X4: a login the limiter rejects never reaches the identity provider,
    and the [HTTPException(429)] raised for it is caught by the
    handler's own [except]: the client gets a 400 whose message is the
    text of that exception, and no cookie. *)
Theorem rate_limited_login_answers_400 :
  forall (request : Request) (email password host : string)
         (w : world R X) (allowed : pyval) (r1 : R),
    client_host request = Some host ->
    check_rate_limit mgr (clock w) "login" host (redis w)
      = (Ok allowed, r1) ->
    truthy allowed = false ->
    login_post mgr io cfg request email password w =
      (Ok (JSONResponse 400
             (PyDict [("success", PyBool false);
                      ("message",
                       PyStr (exn_str io
                                (HTTPException 429
                                   "Too many login attempts. Please try again later.")))])),
       World (clock w) r1 (ext w) (active_connections w)
             (log w ++ [CallCheckRateLimit "login" host;
                        LogError "Login error"
                          (Some (HTTPException 429
                                   "Too many login attempts. Please try again later."))])).
Proof.
  intros request email password host w allowed r1 Hh Hc Ha.
  unfold login_post. run. rewrite Hh. simpl. rewrite Hc. simpl.
  rewrite Ha. simpl. rewrite <- app_assoc. reflexivity.
Qed.

(** X5: when the identity provider does not hand back a user (a falsy
    [auth_response.user], or an exception), the login answers 400, with
    "Invalid credentials" or the text of the exception, and stops there:
    no user lookup, no session write, no cookie. *)
Theorem failed_sign_in_answers_400 :
  forall (request : Request) (email password host : string)
         (w : world R X) (allowed : pyval) (r1 : R),
    client_host request = Some host ->
    check_rate_limit mgr (clock w) "login" host (redis w)
      = (Ok allowed, r1) ->
    truthy allowed = true ->
    confirmed (fst (sign_in_with_password io email password (ext w)))
      = false ->
    let run := login_post mgr io cfg request email password w in
    fst run =
      Ok (JSONResponse 400
            (PyDict [("success", PyBool false);
                     ("message",
                      PyStr (match fst (sign_in_with_password io email
                                          password (ext w)) with
                             | Ok _ => "Invalid credentials"
                             | Raise e => exn_str io e
                             end))]))
    /\ redis (snd run) = r1
    /\ ext (snd run)
       = snd (sign_in_with_password io email password (ext w))
    /\ Forall (fun e => writes e = false) (new_events w (snd run)).
Proof.
  intros request email password host w allowed r1 Hh Hc Ha Hs run.
  subst run. unfold login_post. run. rewrite Hh. simpl. rewrite Hc. simpl.
  rewrite Ha. simpl.
  destruct (sign_in_with_password io email password (ext w))
    as [[user|e] x1]; simpl in *.
  - rewrite Hs. simpl. repeat split; try reflexivity.
    events. repeat constructor.
  - repeat split; try reflexivity. events. repeat constructor.
Qed.
End LoginEdges.

(** Witness of X4: the limiter of the reference manager fails closed, so
    with the store down the login from 10.0.0.1 is rejected. *)
Lemma rate_limited_login_answers_400_witness :
  fst (login_post Demo.manager Demo.io Demo.cfg (Demo.request "")
         "a@b.c" "pw" Demo.outage)
  = Ok (JSONResponse 400
          (PyDict [("success", PyBool false);
                   ("message",
                    PyStr "Too many login attempts. Please try again later.")])).
Proof.
  rewrite (rate_limited_login_answers_400 Demo.manager Demo.io Demo.cfg
             (Demo.request "") "a@b.c" "pw" "10.0.0.1" Demo.outage
             (PyBool false) (redis Demo.outage) eq_refl eq_refl eq_refl).
  reflexivity.
Defined.

(** Witness of X5: the identity provider answers without a user. *)
Lemma failed_sign_in_answers_400_witness :
  fst (login_post Demo.manager Lab.io_no_user Demo.cfg (Demo.request "")
         "a@b.c" "pw" Demo.start)
  = Ok (JSONResponse 400
          (PyDict [("success", PyBool false);
                   ("message", PyStr "Invalid credentials")])).
Proof.
  assert (Hlimit : check_rate_limit Demo.manager (clock Demo.start)
                     "login" "10.0.0.1" (redis Demo.start)
                   = (Ok (PyBool true),
                      snd (check_rate_limit Demo.manager (clock Demo.start)
                             "login" "10.0.0.1" (redis Demo.start)))).
  { vm_compute. reflexivity. }
  destruct (failed_sign_in_answers_400 Demo.manager Lab.io_no_user Demo.cfg
              (Demo.request "") "a@b.c" "pw" "10.0.0.1" Demo.start
              (PyBool true) _ eq_refl Hlimit eq_refl eq_refl) as [H _].
  exact H.
Defined.

(* ================================================================== *)
(** * Further properties of [send_message] and the history endpoints   *)
(* ================================================================== *)





Section SendMessageEdges.
Context {R X : Type}.
Context (mgr : RedisManager R) (io : External X) (cfg : SessionConfig).




(** X6: a request [get_current_user] does not authenticate gets the 401
    from [send_message] and from both history endpoints, not a 500 and
    not an empty history, and nothing is enqueued, stored, cached or
    invalidated on its behalf. *)
Theorem unauthenticated_requests_raise_401_and_write_nothing :
  forall (request : Request) (message : string) (videos : list UploadFile)
         (w : world R X),
    (forall v, fst (get_current_user mgr cfg request false w) <> Ok v) ->
    (fst (send_message mgr io cfg request message videos w)
     = Raise (HTTPException 401 "Authentication error")
     /\ Forall (fun e => writes e = false)
          (new_events w (snd (send_message mgr io cfg request message
                                videos w))))
    /\ (fst (get_chat_history_endpoint mgr io cfg request w)
        = Raise (HTTPException 401 "Authentication error")
        /\ Forall (fun e => writes e = false)
             (new_events w (snd (get_chat_history_endpoint mgr io cfg
                                   request w))))
    /\ (fst (get_video_analysis_history_endpoint mgr io cfg request w)
        = Raise (HTTPException 401 "Authentication error")
        /\ Forall (fun e => writes e = false)
             (new_events w
                (snd (get_video_analysis_history_endpoint mgr io cfg
                        request w)))).
Proof.
  intros request message videos w Hno.
  pose proof (get_current_user_shape mgr cfg request false w) as Hshape.
  destruct (get_current_user_log mgr cfg request false w) as (l & Hl & Fl).
  unfold send_message, get_chat_history_endpoint,
    get_video_analysis_history_endpoint, history_endpoint, bind.
  destruct (get_current_user mgr cfg request false w) as [[v|e] w1];
    simpl in *.
  - exfalso. apply (Hno v). reflexivity.
  - destruct Hshape as [_ ->].
    rewrite (new_events_app w w1 l Hl). auto.
Qed.

(** X7: [send_message] answers 200, or raises an [HTTPException]: the
    401 of [get_current_user], raised before the [try], or a 500 whose
    detail is the text of whatever was raised inside it. *)
Theorem send_message_raises_only_401_or_500 :
  forall (request : Request) (message : string) (videos : list UploadFile)
         (w : world R X),
    match fst (send_message mgr io cfg request message videos w) with
    | Ok resp => status resp = 200 /\ cookie resp = None
    | Raise e =>
        e = HTTPException 401 "Authentication error"
        \/ exists e', e = HTTPException 500 (exn_str io e')
    end.
Proof.
  intros request message videos w.
  pose proof (get_current_user_shape mgr cfg request false w) as Hshape.
  unfold send_message, bind at 1.
  destruct (get_current_user mgr cfg request false w) as [[user|e] w1];
    simpl in *.
  2:{ destruct Hshape as [_ ->]. left. reflexivity. }
  unfold try_except.
  match goal with
  | |- context [match ?body w1 with _ => _ end] =>
      destruct (body w1) as [[resp|e] wb] eqn:Eb
  end.
  - simpl. revert Eb. unfold getitem. run.
    destruct (for_each _ videos w1) as [[[]|e] w2]; [|discriminate].
    destruct (chatbot_send_message io message (ext w2)) as [[rt|e] x3];
      simpl; [|discriminate].
    destruct user as [| | | | |d]; simpl; try discriminate.
    destruct (dict_get "id" d) as [user_id|]; simpl; [|discriminate].
    destruct (uuid_UUID io user_id) as [uid|e]; simpl; [|discriminate].
    destruct (insert_chat_message io uid (PyStr message) "user" x3)
      as [[v1|e] x4]; simpl; [|discriminate].
    destruct (insert_chat_message io uid rt "bot" x4)
      as [[v2|e] x5]; simpl; [|discriminate].
    destruct (invalidate_cache mgr _ _ _) as [[v3|e] r3]; simpl;
      [|discriminate].
    intros [= <- _]. auto.
  - run. right. exists e. reflexivity.
Qed.

End SendMessageEdges.

(** Witness of X6: nobody is logged in on the small deployment. *)
Lemma unauthenticated_requests_raise_401_and_write_nothing_witness :
  fst (send_message Demo.manager Demo.io Demo.cfg (Demo.request "gone")
         "hey" [Lab.video] Demo.start)
  = Raise (HTTPException 401 "Authentication error")
  /\ fst (get_chat_history_endpoint Demo.manager Demo.io Demo.cfg
            (Demo.request "gone") Demo.start)
     = Raise (HTTPException 401 "Authentication error").
Proof.
  destruct (unauthenticated_requests_raise_401_and_write_nothing
              Demo.manager Demo.io Demo.cfg (Demo.request "gone") "hey"
              [Lab.video] Demo.start)
    as ((H1 & _) & (H2 & _) & _).
  - intros v H. vm_compute in H. discriminate H.
  - split; [exact H1 | exact H2].
Defined.

Section VideoEdges.
Context {R X : Type}.
Context (mgr : RedisManager R) (io : External X).

(** X9: the processing task of an upload is enqueued before the file is
    stored: when [store_file] then answers falsy, the task stays queued
    for a file that was never stored, no analysis is run, no analysis
    task is enqueued, nothing is inserted, and the loop goes on without
    an error. *)
Theorem refused_file_leaves_processing_task :
  forall (d : list (string * pyval)) (user_id : pyval) (video : UploadFile)
         (w : world R X) (content_ : pyval) (x1 x2 x3 : X)
         (file_id : string) (task_id stored : pyval) (r1 : R),
    dict_get "id" d = Some user_id ->
    video_read io video (ext w) = (Ok content_, x1) ->
    uuid4 io x1 = (Ok file_id, x2) ->
    enqueue_task mgr (clock w) VIDEO_PROCESSING
      (PyDict [("file_id", PyStr file_id); ("filename", filename video);
               ("user_id", user_id)]) HIGH (redis w) = (Ok task_id, r1) ->
    store_file io file_id content_ x2 = (Ok stored, x3) ->
    truthy stored = false ->
    process_video mgr io (PyDict d) video w =
      (Ok tt,
       World (clock w) r1 x3 (active_connections w)
             (log w ++ [CallEnqueueTask VIDEO_PROCESSING
                          (PyDict [("file_id", PyStr file_id);
                                   ("filename", filename video);
                                   ("user_id", user_id)]) HIGH])).
Proof.
  intros d user_id video w content_ x1 x2 x3 file_id task_id stored r1
         Hid Hread Huuid Henq Hstore Hfalsy.
  unfold process_video, getitem. run.
  rewrite Hread. simpl. rewrite Huuid. simpl. rewrite Hid. simpl.
  rewrite Henq. simpl. rewrite Hstore. simpl. rewrite Hfalsy. reflexivity.
Qed.
End VideoEdges.

(** Witness of X9: user "u1" uploads a clip while the file storage
    refuses every file; the queue of the reference manager holds the
    processing task afterwards. *)
Lemma refused_file_leaves_processing_task_witness :
  fst (process_video Demo.manager Lab.io_full_disk (PyDict Demo.claims)
         Lab.video Demo.start) = Ok tt
  /\ map RedisStore.task_type
       (RedisStore.retrieve_all
          (redis (snd (process_video Demo.manager Lab.io_full_disk
                         (PyDict Demo.claims) Lab.video Demo.start))))
     = [VIDEO_PROCESSING].
Proof.
  assert (Henq : enqueue_task Demo.manager (clock Demo.start)
                   VIDEO_PROCESSING
                   (PyDict [("file_id", PyStr "file-1");
                            ("filename", filename Lab.video);
                            ("user_id", PyStr "u1")]) HIGH
                   (redis Demo.start)
                 = (Ok (PyNum 0),
                    snd (enqueue_task Demo.manager (clock Demo.start)
                           VIDEO_PROCESSING
                           (PyDict [("file_id", PyStr "file-1");
                                    ("filename", filename Lab.video);
                                    ("user_id", PyStr "u1")]) HIGH
                           (redis Demo.start)))).
  { vm_compute. reflexivity. }
  rewrite (refused_file_leaves_processing_task Demo.manager Lab.io_full_disk
             Demo.claims (PyStr "u1") Lab.video Demo.start (PyStr "bytes")
             [] [] [] "file-1" (PyNum 0) (PyBool false) _
             eq_refl eq_refl eq_refl Henq eq_refl eq_refl).
  split; [reflexivity | vm_compute; reflexivity].
Defined.

(* ================================================================== *)
(** * Further properties of the connection registry and the socket     *)
(* ================================================================== *)

Section SocketFacts.
Context {R X : Type}.
Context (io : External X) (probes : Probes R X).
Context (mgr : RedisManager R) (cfg : SessionConfig).
Import ConnectionManager.

Lemma disconnect_result (c : string) (w : world R X) :
  disconnect c w =
    (Ok PyNone,
     World (clock w) (redis w) (ext w) (delete c (active_connections w))
           (log w)).
Proof.
  unfold disconnect. run.
  destruct (active_connections w !! c) eqn:E; simpl; [reflexivity|].
  rewrite delete_id by exact E. destruct w; reflexivity.
Qed.

(** X10: [disconnect] never raises, also for an id that is not
    registered; it removes the entry of that id and no other, doing it
    twice is doing it once, and a message sent to the id afterwards is
    dropped: nothing is delivered and nothing is raised. *)
Theorem disconnect_unregisters_the_client_id :
  forall (c : string) (msg : pyval) (w : world R X),
    let w' := snd (disconnect (R := R) (X := X) c w) in
    fst (disconnect c w) = Ok PyNone
    /\ active_connections w' !! c = None
    /\ (forall c', c' <> c ->
          active_connections w' !! c' = active_connections w !! c')
    /\ snd (disconnect c w') = w'
    /\ send_message io msg c w' = (Ok PyNone, w').
Proof.
  intros c msg w w'. subst w'. rewrite !disconnect_result. simpl.
  split; [reflexivity|]. split; [apply lookup_delete_eq|].
  split; [intros c' Hne; apply lookup_delete_ne; congruence|].
  split.
  - rewrite delete_delete_eq. reflexivity.
  - apply send_message_absent. simpl. apply lookup_delete_eq.
Qed.

(** X11: when a socket's peer hangs up, its endpoint removes whatever is
    registered under the client id, the handle of a newer socket of the
    same client included: after that, messages to the client are
    dropped although the newer socket is still open. *)
Theorem hang_up_of_any_socket_unregisters_the_client :
  forall (fuel : nat) (websocket newer : handle) (c : string)
         (msg : pyval) (w : world R X) (x' : X),
    active_connections w !! c = Some newer ->
    ws_receive_text probes websocket (ext w)
      = (Raise WebSocketDisconnect, x') ->
    let run :=
      ws_handlers io c (receive_loop io probes (S fuel) websocket c) w in
    fst run = Ok tt
    /\ active_connections (snd run) !! c = None
    /\ sent_by io msg c (snd run) = [].
Proof.
  intros fuel websocket newer c msg w x' Hreg Hrecv run.
  assert (Hloop : receive_loop io probes (S fuel) websocket c w
                  = (Raise WebSocketDisconnect,
                     World (clock w) (redis w) x' (active_connections w)
                           (log w))).
  { simpl. run. rewrite Hrecv. reflexivity. }
  assert (Hrun : run
                 = (Ok tt,
                    World (clock w) (redis w) x'
                          (delete c (active_connections w)) (log w))).
  { subst run. unfold ws_handlers. rewrite Hloop.
    unfold bind. rewrite disconnect_result. reflexivity. }
  rewrite Hrun. simpl.
  split; [reflexivity|]. split; [apply lookup_delete_eq|].
  unfold sent_by. rewrite send_message_absent
    by (simpl; apply lookup_delete_eq).
  simpl. apply drop_all.
Qed.

(** X12: a reply is delivered through the handle registered under the
    client id when it is sent, which need not be the socket the message
    came in on; with nothing registered the reply is dropped and the
    loop goes on. *)
Theorem reply_goes_to_the_registered_handle :
  forall (websocket : handle) (c data : string) (response : pyval)
         (w : world R X) (x1 x2 : X),
    ws_receive_text probes websocket (ext w) = (Ok data, x1) ->
    chatbot_send_message io data x1 = (Ok response, x2) ->
    new_events w (snd (receive_loop io probes 1 websocket c w))
    = match active_connections w !! c with
      | Some registered =>
          [CallSendJson registered (ws_payload "message" response c)]
      | None => []
      end.
Proof.
  intros websocket c data response w x1 x2 Hrecv Hchat.
  simpl. unfold send_message. run. rewrite Hrecv. simpl.
  rewrite Hchat. simpl.
  destruct (active_connections w !! c) as [registered|]; simpl.
  - destruct (ws_send_json io registered _ x2) as [[v|e] x3]; simpl;
      apply new_events_app; reflexivity.
  - unfold new_events. simpl. apply drop_all.
Qed.

(** X13: an exception other than a hang-up (here: from the chatbot) is
    logged, the client stays registered, and the error notice is sent
    through the registered handle; if that send raises, the exception
    leaves the endpoint. *)
Theorem socket_error_is_reported_to_the_client :
  forall (fuel : nat) (websocket registered : handle) (c data : string)
         (cls what : string) (w : world R X) (x1 x2 : X),
    active_connections w !! c = Some registered ->
    ws_receive_text probes websocket (ext w) = (Ok data, x1) ->
    chatbot_send_message io data x1 = (Raise (PyError cls what), x2) ->
    let run :=
      ws_handlers io c (receive_loop io probes (S fuel) websocket c) w in
    fst run
    = match fst (ws_send_json io registered
                   (ws_payload "error"
                      (PyStr "An error occurred processing your message")
                      c) x2) with
      | Ok _ => Ok tt
      | Raise e => Raise e
      end
    /\ active_connections (snd run) !! c = Some registered
    /\ new_events w (snd run)
       = [LogError "WebSocket error" (Some (PyError cls what));
          CallSendJson registered
            (ws_payload "error"
               (PyStr "An error occurred processing your message") c)].
Proof.
  intros fuel websocket registered c data cls what w x1 x2 Hreg Hrecv
         Hchat run.
  assert (Hloop : receive_loop io probes (S fuel) websocket c w
                  = (Raise (PyError cls what),
                     World (clock w) (redis w) x2 (active_connections w)
                           (log w))).
  { simpl. run. rewrite Hrecv. simpl. rewrite Hchat. reflexivity. }
  subst run. unfold ws_handlers. rewrite Hloop. run. rewrite Hreg.
  unfold send_message. run. rewrite Hreg. simpl.
  destruct (ws_send_json io registered _ x2) as [[v|e] x3]; simpl;
    (split; [reflexivity|]); (split; [exact Hreg|]);
    apply new_events_app; rewrite <- app_assoc; reflexivity.
Qed.
End SocketFacts.

(** Witness of X11: socket 1 of client "c1" was superseded by socket 2;
    its peer hangs up. *)
Lemma hang_up_of_any_socket_unregisters_the_client_witness :
  active_connections
    (snd (ws_handlers Demo.io "c1"
            (receive_loop Demo.io Lab.probes 1 1%nat "c1")
            (Lab.connected [(0%N, PyStr "ping")]))) !! "c1" = None.
Proof.
  apply (hang_up_of_any_socket_unregisters_the_client Demo.io Lab.probes
           0%nat 1%nat 2%nat "c1" PyNone
           (Lab.connected [(0%N, PyStr "ping")]) [(0%N, PyStr "ping")]
           eq_refl eq_refl).
Defined.

(** Witness of X12: the message comes in on socket 1, the reply leaves
    through socket 2. *)
Lemma reply_goes_to_the_registered_handle_witness :
  new_events (Lab.connected [])
    (snd (receive_loop Demo.io Lab.probes 1 1%nat "c1" (Lab.connected [])))
  = [CallSendJson 2%nat (ws_payload "message" (PyStr "hello") "c1")].
Proof.
  apply (reply_goes_to_the_registered_handle Demo.io Lab.probes 1%nat "c1"
           "ping" (PyStr "hello") (Lab.connected [])
           [(0%N, PyStr "ping")] [(0%N, PyStr "ping")] eq_refl eq_refl).
Defined.

(** Witness of X13: the chatbot is down when the first message comes
    in. *)
Lemma socket_error_is_reported_to_the_client_witness :
  new_events (Lab.connected [])
    (snd (ws_handlers Lab.io_no_chatbot "c1"
            (receive_loop Lab.io_no_chatbot Lab.probes 1 1%nat "c1")
            (Lab.connected [])))
  = [LogError "WebSocket error"
       (Some (PyError "ConnectionError" "chatbot"));
     CallSendJson 2%nat
       (ws_payload "error"
          (PyStr "An error occurred processing your message") "c1")].
Proof.
  apply (socket_error_is_reported_to_the_client Lab.io_no_chatbot
           Lab.probes 0%nat 1%nat 2%nat "c1" "ping" "ConnectionError"
           "chatbot" (Lab.connected []) [(0%N, PyStr "ping")]
           [(0%N, PyStr "ping")] eq_refl eq_refl eq_refl).
Defined.

(* ================================================================== *)
(** * Logout, authentication status, health and the sweeper            *)
(* ================================================================== *)

Section StatusFacts.
Context {R X : Type}.
Context (mgr : RedisManager R) (io : External X) (probes : Probes R X)
        (cfg : SessionConfig).

(** X14: whenever [logout] answers, the answer is the same 200 that
    clears the cookie, whether or not a session was deleted (the result
    of [delete_session] is not looked at); it fails only when
    [delete_session] raises, with that exception, which is not caught. *)
Theorem logout_ignores_the_result_of_delete_session :
  forall (request : Request) (w : world R X),
    match fst (logout mgr request w) with
    | Ok resp => resp = logged_out
    | Raise e =>
        default "" (cookie_session_id request) <> ""
        /\ fst (delete_session mgr (clock w)
                  (default "" (cookie_session_id request)) (redis w))
           = Raise e
    end.
Proof.
  intros request w. unfold logout. run.
  destruct (String.eqb _ "") eqn:E; simpl; [reflexivity|].
  destruct (delete_session mgr (clock w) _ (redis w)) as [[v|e] r'];
    simpl; [reflexivity|].
  split; [apply String.eqb_neq; exact E | reflexivity].
Qed.

(** X15: [auth_status] never raises: it answers 200 or 500 and sets no
    cookie; and it says [authenticated: true] only in a 200 whose
    [user] is a dict with the ['id'] field. *)
Theorem auth_status_always_answers :
  forall (request : Request) (w : world R X),
    exists resp : Response,
      fst (auth_status mgr io cfg request w) = Ok resp
      /\ (status resp = 200 \/ status resp = 500)
      /\ cookie resp = None
      /\ (response_field "authenticated" resp = Some (PyBool true) ->
          status resp = 200
          /\ exists d, response_field "user" resp = Some (PyDict d)
                       /\ dict_mem "id" d = true).
Proof.
  intros request w. unfold auth_status. run.
  destruct (String.eqb _ ""); simpl.
  { eexists. split; [reflexivity|]. simpl. split; [auto|].
    split; [reflexivity|]. unfold response_field. simpl. discriminate. }
  destruct (refresh_session mgr (clock w) _ (redis w)) as [[v|e] r1];
    simpl.
  2:{ eexists. split; [reflexivity|]. simpl. split; [auto|].
      split; [reflexivity|]. unfold response_field. simpl. discriminate. }
  destruct (truthy v); simpl.
  2:{ eexists. split; [reflexivity|]. simpl. split; [auto|].
      split; [reflexivity|]. unfold response_field. simpl. discriminate. }
  match goal with
  | |- context [get_current_user mgr cfg request true ?w1] =>
      pose proof (get_current_user_shape mgr cfg request true w1) as Hs;
      destruct (get_current_user mgr cfg request true w1)
        as [[user|e] w2]; simpl in *
  end.
  - eexists. split; [reflexivity|]. simpl. split; [auto|].
    split; [reflexivity|]. unfold response_field. simpl.
    destruct Hs as [[_ ->]|(d & -> & Hid)]; simpl; [discriminate|].
    intros _. split; [reflexivity|]. exists d.
    destruct d; [discriminate Hid|]. simpl. auto.
  - destruct Hs as [Hs _]. discriminate Hs.
Qed.

(** X16: with a session cookie, [auth_status] calls [refresh_session]
    first, whatever the age of the session; when that answers falsy the
    session is not validated at all and the answer is "Session expired
    or invalid". *)
Theorem auth_status_refreshes_before_validating :
  forall (request : Request) (w : world R X) (sid : string),
    cookie_session_id request = Some sid ->
    sid <> "" ->
    let run := auth_status mgr io cfg request w in
    (exists l, new_events w (snd run) = CallRefreshSession sid :: l)
    /\ (forall v r1,
          refresh_session mgr (clock w) sid (redis w) = (Ok v, r1) ->
          truthy v = false ->
          run = (Ok (JSONResponse 200
                       (PyDict [("authenticated", PyBool false);
                                ("message",
                                 PyStr "Session expired or invalid")])),
                 World (clock w) r1 (ext w) (active_connections w)
                       (log w ++ [CallRefreshSession sid]))).
Proof.
  intros request w sid Hc Hne run. subst run.
  unfold auth_status. rewrite Hc. simpl. run.
  apply String.eqb_neq in Hne. rewrite Hne.
  destruct (refresh_session mgr (clock w) sid (redis w)) as [[v|e] r1];
    simpl.
  2:{ split; [|intros ? ? [=]].
      eexists. apply new_events_app. simpl. rewrite <- app_assoc.
      reflexivity. }
  destruct (truthy v) eqn:Ev; simpl.
  2:{ split.
      - eexists. apply new_events_app. reflexivity.
      - intros v' r1' [= <- <-] _. reflexivity. }
  split; [|intros v' r1' [= <- <-] Hv; congruence].
  match goal with
  | |- context [get_current_user mgr cfg request true ?w1] =>
      destruct (get_current_user_log mgr cfg request true w1)
        as (l & Hl & _);
      pose proof (get_current_user_shape mgr cfg request true w1) as Hs;
      destruct (get_current_user mgr cfg request true w1)
        as [[user|e] w2]; simpl in *
  end.
  - eexists. apply new_events_app. rewrite Hl, <- app_assoc. reflexivity.
  - destruct Hs as [Hs _]. discriminate Hs.
Qed.

(** X17: once the Redis health call has returned, [health_check] always
    answers; the overall status is decided by the probe of the identity
    provider alone (healthy on a 200 whose body parses, degraded on any
    other status, unhealthy on an exception), whatever the Redis part
    says, and the Redis part is passed on as it is. *)
Theorem health_status_follows_the_identity_provider :
  forall (w : world R X) (redis_part : pyval) (r1 : R),
    redis_health_check probes (clock w) (redis w) = (Ok redis_part, r1) ->
    exists supabase_status details,
      fst (health_check io probes w)
      = Ok (health_report
              (overall_status (fst (supabase_get_health probes (ext w))))
              (utcnow_isoformat probes (clock w))
              redis_part supabase_status details).
Proof.
  intros w redis_part r1 Hr. unfold health_check. run. rewrite Hr. simpl.
  destruct (supabase_get_health probes (ext w)) as [[response|e] x1];
    simpl; [|eauto].
  destruct (http_status response =? 200); simpl; [|eauto].
  destruct (http_json response); simpl; eauto.
Qed.

End StatusFacts.

(** Witness of X16: the cookie names a session that does not exist. *)
Lemma auth_status_refreshes_before_validating_witness :
  auth_status Demo.manager Demo.io Demo.cfg (Demo.request "gone") Demo.start
  = (Ok (JSONResponse 200
           (PyDict [("authenticated", PyBool false);
                    ("message", PyStr "Session expired or invalid")])),
     World 1000 RedisStore.empty [] ∅ [CallRefreshSession "gone"]).
Proof.
  destruct (auth_status_refreshes_before_validating Demo.manager Demo.io
              Demo.cfg (Demo.request "gone") Demo.start "gone" eq_refl
              ltac:(discriminate)) as [_ H].
  exact (H (PyBool false) RedisStore.empty eq_refl eq_refl).
Defined.

(** Witness of X17: Redis reports itself unhealthy, the identity provider
    answers 200: the overall status is "healthy". *)
Lemma health_status_follows_the_identity_provider_witness :
  exists supabase_status details,
    fst (health_check Demo.io Lab.probes Demo.start)
    = Ok (health_report "healthy" "2024-01-01T00:00:00"
            (PyDict [("status", PyStr "unhealthy")])
            supabase_status details).
Proof.
  exact (health_status_follows_the_identity_provider Demo.io Lab.probes
           Demo.start (PyDict [("status", PyStr "unhealthy")])
           RedisStore.empty eq_refl).
Defined.


Section MoreEndpointFacts.
Context {R X : Type}.
Context (mgr : RedisManager R) (io : External X) (cfg : SessionConfig).

Lemma history_endpoint_bad_user_id
    (key_of : pyval -> string) (info : string) (query_event : N -> event)
    (query : N -> X -> result pyval * X) :
  forall (request : Request) (w w1 : world R X)
         (d : list (string * pyval)) (uid cached : pyval) (r2 : R)
         (e : exn),
    get_current_user mgr cfg request false w = (Ok (PyDict d), w1) ->
    dict_get "id" d = Some uid ->
    get_cache mgr (clock w1) (key_of uid) (redis w1) = (Ok cached, r2) ->
    truthy cached = false ->
    uuid_UUID io uid = Raise e ->
    history_endpoint mgr io cfg key_of info query_event query request w
    = (Raise e,
       World (clock w1) r2 (ext w1) (active_connections w1)
             (log w1 ++ [CallGetCache (key_of uid)])).
Proof.
  intros request w w1 d uid cached r2 e Huser Hid Hcache Hfalsy Hu.
  assert (Hd : truthy (PyDict d) = true).
  { destruct d; [discriminate Hid | reflexivity]. }
  assert (Hstart :
    forall k : pyval -> M R X Response,
      bind (get_current_user mgr cfg request false) k w = k (PyDict d) w1).
  { intros k. unfold bind. rewrite Huser. reflexivity. }
  unfold history_endpoint. rewrite Hstart, Hd.
  unfold getitem. rewrite Hid. run. rewrite Hcache. simpl.
  rewrite Hfalsy, Hu. reflexivity.
Qed.

(** X19: on a cache miss for a user whose id [uuid.UUID] rejects, both
    history endpoints raise that error, uncaught, before the datastore
    is queried and without writing the cache; a truthy cached value is
    served without the id ever being parsed (C10). *)
Theorem history_miss_with_malformed_user_id_raises :
  forall (request : Request) (w w1 : world R X)
         (d : list (string * pyval)) (uid : pyval) (e : exn),
    get_current_user mgr cfg request false w = (Ok (PyDict d), w1) ->
    dict_get "id" d = Some uid ->
    uuid_UUID io uid = Raise e ->
    (forall cached r2,
        get_cache mgr (clock w1) (chat_history_key io uid) (redis w1)
          = (Ok cached, r2) ->
        truthy cached = false ->
        get_chat_history_endpoint mgr io cfg request w
        = (Raise e,
           World (clock w1) r2 (ext w1) (active_connections w1)
                 (log w1 ++ [CallGetCache (chat_history_key io uid)])))
    /\ (forall cached r2,
           get_cache mgr (clock w1) (video_history_key io uid) (redis w1)
             = (Ok cached, r2) ->
           truthy cached = false ->
           get_video_analysis_history_endpoint mgr io cfg request w
           = (Raise e,
              World (clock w1) r2 (ext w1) (active_connections w1)
                    (log w1 ++ [CallGetCache (video_history_key io uid)]))).
Proof.
  intros request w w1 d uid e Huser Hid Hu. split.
  - intros cached r2 Hc Hf.
    apply (history_endpoint_bad_user_id _ _ _ _ request w w1 d uid cached
             r2 e Huser Hid Hc Hf Hu).
  - intros cached r2 Hc Hf.
    apply (history_endpoint_bad_user_id _ _ _ _ request w w1 d uid cached
             r2 e Huser Hid Hc Hf Hu).
Qed.

End MoreEndpointFacts.


(** Witness of X19: the id of the logged-in user is the number 7 and
    nothing is cached for it. *)
Lemma history_miss_with_malformed_user_id_raises_witness :
  fst (get_chat_history_endpoint Demo.manager Demo.io Demo.cfg
         (Demo.request "s1") Lab.numeric_id)
  = Raise (PyError "TypeError" "").
Proof.
  set (validated := get_current_user Demo.manager Demo.cfg
                      (Demo.request "s1") false Lab.numeric_id).
  assert (Huser : validated
                  = (Ok (PyDict [("id", PyNum 7);
                                 ("last_refresh", PyNum 1000)]),
                     snd validated)).
  { vm_compute. reflexivity. }
  destruct (history_miss_with_malformed_user_id_raises Demo.manager Demo.io
              Demo.cfg (Demo.request "s1") Lab.numeric_id (snd validated)
              [("id", PyNum 7); ("last_refresh", PyNum 1000)] (PyNum 7)
              (PyError "TypeError" "") Huser eq_refl eq_refl) as [H _].
  assert (Hcache : get_cache Demo.manager (clock (snd validated))
                     (chat_history_key Demo.io (PyNum 7))
                     (redis (snd validated))
                   = (Ok PyNone, redis (snd validated))).
  { vm_compute. reflexivity. }
  rewrite (H PyNone _ Hcache eq_refl). reflexivity.
Defined.
